(** * Expense tracker: ingestion and normalisation of Notion rows

    A shallow embedding of [load_data_from_notion] from
    [streamlit_expenses.py]: the paginated fetch, the per-row field
    extraction with its row-level exception handler, and the final
    [dropna] / [sort_values] on the ['Date'] column.

    Python values are the JSON values the Notion client hands back;
    exceptions are explicit results; the [while] loop over pages runs on
    fuel.  What belongs to libraries (the pandas date parsers, the zone
    table of Asia/Kolkata, the parsing of a float literal) is gathered in
    the record [Lib]: the general theorems hold for every such record,
    and the concrete runs use the sample record [Sample.iso_lib]. *)

From Stdlib Require Import ZArith List String Ascii Bool Lia.
From Stdlib Require Import Permutation Sorted.
From Stdlib Require Import Floats.SpecFloat.
Import ListNotations.

Open Scope string_scope.
Open Scope list_scope.
Open Scope Z_scope.

(** ** Exceptions and results *)

Inductive exn : Type :=
| KeyError
| TypeError
| AttributeError
| IndexError
| ValueError
| OverflowError
| OutOfBoundsDatetime
| DateParseError
| UnboundLocalError
| APIResponseError.

Inductive result (A : Type) : Type :=
| Ok (a : A)
| Raise (e : exn).

Arguments Ok {A} a.
Arguments Raise {A} e.

Definition bind {A B} (r : result A) (k : A -> result B) : result B :=
  match r with
  | Ok a => k a
  | Raise e => Raise e
  end.

Notation "x <- c ;; k" := (bind c (fun x => k))
  (at level 61, c at next level, right associativity).

(** [try: body except Exception: handler] *)
Definition try_except {A} (body : result A) (handler : exn -> result A) : result A :=
  match body with
  | Ok a => Ok a
  | Raise e => handler e
  end.

(** ** Python values *)

Definition float := spec_float.

(** [float] is IEEE binary64. *)
Definition prec : Z := 53.
Definition emax : Z := 1024.

#[local] Unset Elimination Schemes.

Inductive value : Type :=
| VNone
| VBool (b : bool)
| VInt (z : Z)
| VFloat (f : float)
| VStr (s : string)
| VList (l : list value)
| VDict (d : list (string * value)).

#[local] Set Elimination Schemes.

Definition empty_dict : value := VDict [].

Fixpoint lookup (k : string) (d : list (string * value)) : option value :=
  match d with
  | [] => None
  | (k', v) :: d' => if String.eqb k k' then Some v else lookup k d'
  end.

(** Truth value of an object, as [if x:] and [x or y] test it. *)
Definition truthy (v : value) : bool :=
  match v with
  | VNone => false
  | VBool b => b
  | VInt z => negb (z =? 0)
  | VFloat (S754_zero _) => false
  | VFloat _ => true
  | VStr s => negb (String.eqb s "")
  | VList l => match l with [] => false | _ => true end
  | VDict d => match d with [] => false | _ => true end
  end.

(** [v.get(k, default)]: only a dict has the method. *)
Definition get (v : value) (k : string) (default : value) : result value :=
  match v with
  | VDict d => Ok (match lookup k d with Some x => x | None => default end)
  | _ => Raise AttributeError
  end.

(** [v[k]] for a string key. *)
Definition getitem (v : value) (k : string) : result value :=
  match v with
  | VDict d => match lookup k d with Some x => Ok x | None => Raise KeyError end
  | _ => Raise TypeError
  end.

(** [v[0]].  The keys of a JSON object are strings, so a dict has no key [0]. *)
Definition getitem0 (v : value) : result value :=
  match v with
  | VList (x :: _) => Ok x
  | VList [] => Raise IndexError
  | VStr (String c _) => Ok (VStr (String c ""))
  | VStr EmptyString => Raise IndexError
  | VDict _ => Raise KeyError
  | _ => Raise TypeError
  end.

Fixpoint is_prefix (p s : string) : bool :=
  match p, s with
  | EmptyString, _ => true
  | String a p', String b s' => Ascii.eqb a b && is_prefix p' s'
  | String _ _, EmptyString => false
  end.

Fixpoint is_substring (p s : string) : bool :=
  is_prefix p s ||
  match s with
  | EmptyString => false
  | String _ s' => is_substring p s'
  end.

Definition is_str (k : string) (v : value) : bool :=
  match v with
  | VStr s => String.eqb k s
  | _ => false
  end.

(** [k in v] for a string [k]: key of a dict, element of a list,
    substring of a string; anything else is not iterable. *)
Definition contains (k : string) (v : value) : result bool :=
  match v with
  | VDict d => Ok (match lookup k d with Some _ => true | None => false end)
  | VList l => Ok (existsb (is_str k) l)
  | VStr s => Ok (is_substring k s)
  | _ => Raise TypeError
  end.

Fixpoint chars (s : string) : list value :=
  match s with
  | EmptyString => []
  | String c s' => VStr (String c "") :: chars s'
  end.

(** The elements [list.extend(v)] appends: the items of a list, the
    characters of a string, the keys of a dict. *)
Definition iterate (v : value) : result (list value) :=
  match v with
  | VList l => Ok l
  | VStr s => Ok (chars s)
  | VDict d => Ok (map (fun kv => VStr (fst kv)) d)
  | _ => Raise TypeError
  end.

(** [len(v)] *)
Definition len (v : value) : result Z :=
  match v with
  | VList l => Ok (Z.of_nat (List.length l))
  | VStr s => Ok (Z.of_nat (String.length s))
  | VDict d => Ok (Z.of_nat (List.length d))
  | _ => Raise TypeError
  end.

(** [s.split('T')[0]]: the characters before the first ['T']. *)
Fixpoint before_T (s : string) : string :=
  match s with
  | EmptyString => EmptyString
  | String c s' => if Ascii.eqb c "T"%char then EmptyString else String c (before_T s')
  end.

Definition split_T_0 (v : value) : result value :=
  match v with
  | VStr s => Ok (VStr (before_T s))
  | _ => Raise AttributeError
  end.

(** ** Floats *)

Definition float_zero : float := S754_zero false.
Definition float_one : float := binary_normalize prec emax 1 0 false.

(** [float(n)] for an [int]: round to nearest even, [OverflowError] when
    the integer is too large for a double. *)
Definition float_of_int (z : Z) : result float :=
  match binary_normalize prec emax z 0 false with
  | S754_infinity _ => Raise OverflowError
  | f => Ok f
  end.


(** ** Timestamps *)

Inductive tzinfo : Type :=
| UTC
| Asia_Kolkata
| FixedOffset (offset_ns : Z).

(** A pandas scalar datetime: [NaT], or a signed 64-bit count of
    nanoseconds since the epoch with an optional zone.  With a zone the
    count is the UTC instant; without one it is the wall-clock reading. *)
Inductive stamp : Type :=
| NaT
| Ts (ns : Z) (tz : option tzinfo).

Definition ns_per_second : Z := 1000000000.
Definition ns_per_day : Z := 86400 * ns_per_second.

(** UTC+5:30 *)
Definition IST_offset : Z := 19800 * ns_per_second.

Definition in_bounds (ns : Z) : bool :=
  (- 2 ^ 63 <? ns) && (ns <? 2 ^ 63).

(** [Timestamp.date()] as a day number since 1970-01-01, and the time
    elapsed since that day's midnight. *)
Definition calendar_date (ns : Z) : Z := ns / ns_per_day.
Definition time_of_day (ns : Z) : Z := ns mod ns_per_day.

(** ** What the libraries provide *)

Record Lib : Type := {
  (** [pd.to_datetime(x, format='mixed')] *)
  to_datetime_mixed : value -> result stamp;
  (** [pd.to_datetime(x)] *)
  to_datetime : value -> result stamp;
  (** offset from UTC of the zone Asia/Kolkata at a UTC instant, in
      nanoseconds (the zone table gives +5:30 from October 1945 on) *)
  kolkata_utcoffset : Z -> Z;
  (** [float(s)] for a string: [None] stands for [ValueError] *)
  float_of_str : string -> option float
}.

(** ** Field extraction (the body of the row loop) *)

Section Extraction.

Context (P : Lib).

(** [float(x)] *)
Definition py_float (v : value) : result float :=
  match v with
  | VInt z => float_of_int z
  | VBool b => Ok (if b then float_one else float_zero)
  | VFloat f => Ok f
  | VStr s => match float_of_str P s with Some f => Ok f | None => Raise ValueError end
  | _ => Raise TypeError
  end.

(** [x or y] *)
Definition py_or (x y : value) : value := if truthy x then x else y.

(** [properties.get("Date", {}).get("date", {}).get("start")] *)
Definition date_start (properties : value) : result value :=
  d <- get properties "Date" empty_dict ;;
  dd <- get d "date" empty_dict ;;
  get dd "start" VNone.

(** Lines 68-78: the category of a row from its ["Category"] property. *)
Definition extract_category (category_prop : value) : result value :=
  if truthy category_prop then
    has_select <- contains "select" category_prop ;;
    if has_select then
      sel <- getitem category_prop "select" ;;
      if truthy sel then getitem sel "name" else Ok (VStr "")
    else
      has_multi <- contains "multi_select" category_prop ;;
      if has_multi then
        multi_select <- getitem category_prop "multi_select" ;;
        if truthy multi_select then
          first <- getitem0 multi_select ;;
          getitem first "name"
        else Ok (VStr "")
      else
        has_rich <- contains "rich_text" category_prop ;;
        if has_rich then
          rich_text <- getitem category_prop "rich_text" ;;
          if truthy rich_text then
            first <- getitem0 rich_text ;;
            text <- getitem first "text" ;;
            getitem text "content"
          else Ok (VStr "")
        else Ok (VStr "")
  else Ok (VStr "").

(** Offset from UTC of a zone at a UTC instant. *)
Definition utcoffset (tz : tzinfo) (ns : Z) : Z :=
  match tz with
  | UTC => 0
  | Asia_Kolkata => kolkata_utcoffset P ns
  | FixedOffset o => o
  end.

(** [t.tz_localize('UTC')]: only for a stamp without a zone. *)
Definition tz_localize_UTC (t : stamp) : result stamp :=
  match t with
  | NaT => Ok NaT
  | Ts ns None => Ok (Ts ns (Some UTC))
  | Ts _ (Some _) => Raise TypeError
  end.

(** [t.tz_convert('Asia/Kolkata')]: the instant is kept, the zone changes. *)
Definition tz_convert_Kolkata (t : stamp) : result stamp :=
  match t with
  | NaT => Ok NaT
  | Ts _ None => Raise TypeError
  | Ts ns (Some _) => Ok (Ts ns (Some Asia_Kolkata))
  end.

(** [t.tz_localize(None)]: the wall-clock reading in the stamp's zone,
    without a zone.  The reading must fit the 64-bit range. *)
Definition tz_localize_None (t : stamp) : result stamp :=
  match t with
  | NaT => Ok NaT
  | Ts ns None => Ok (Ts ns None)
  | Ts ns (Some tz) =>
      let wall := ns + utcoffset tz ns in
      if in_bounds wall then Ok (Ts wall None) else Raise OutOfBoundsDatetime
  end.

(** [t.tzinfo is None] *)
Definition tzinfo_is_None (t : stamp) : bool :=
  match t with
  | Ts _ (Some _) => false
  | _ => true
  end.

(** Lines 84-90: the body of the inner [try]. *)
Definition parse_aware (date_value : value) : result stamp :=
  parsed_date <- to_datetime_mixed P date_value ;;
  parsed_date <- (if tzinfo_is_None parsed_date
                  then tz_localize_UTC parsed_date
                  else Ok parsed_date) ;;
  parsed_date <- tz_convert_Kolkata parsed_date ;;
  tz_localize_None parsed_date.

(** Lines 81-96.  [None] is Python's [None]. *)
Definition parse_date (date_value : value) : result (option stamp) :=
  if truthy date_value then
    t <- try_except (parse_aware date_value)
           (fun _ => head <- split_T_0 date_value ;; to_datetime P head) ;;
    Ok (Some t)
  else Ok None.

(** The expression of lines 99 and 103:
    [properties.get(F, {}).get(K, [{}])[0].get("text", {}).get("content", "")
     if properties.get(F, {}).get(K) else ""] *)
Definition first_content (properties : value) (F K : string) : result value :=
  prop <- get properties F empty_dict ;;
  cond <- get prop K VNone ;;
  if truthy cond then
    prop <- get properties F empty_dict ;;
    fragments <- get prop K (VList [empty_dict]) ;;
    first <- getitem0 fragments ;;
    text <- get first "text" empty_dict ;;
    get text "content" (VStr "")
  else Ok (VStr "").

(** [float(properties.get("Amount", {}).get("number", 0) or 0)] *)
Definition extract_amount (properties : value) : result float :=
  prop <- get properties "Amount" empty_dict ;;
  number <- get prop "number" (VInt 0) ;;
  py_float (py_or number (VInt 0)).

Record Row : Type := {
  Name : value;
  Amount : float;
  Category : value;
  Date : option stamp;
  Comment : value
}.

(** Lines 61-104: everything in the row's [try] after [properties] is bound. *)
Definition extract_row (properties : value) : result Row :=
  date_value <- date_start properties ;;
  category_prop <- get properties "Category" empty_dict ;;
  category_value <- extract_category category_prop ;;
  parsed_date <- parse_date date_value ;;
  name <- first_content properties "Name" "title" ;;
  amount <- extract_amount properties ;;
  comment <- first_content properties "Comment" "rich_text" ;;
  Ok {| Name := name; Amount := amount; Category := category_value;
        Date := parsed_date; Comment := comment |}.

End Extraction.

(** ** The table *)

Record DataFrame : Type := {
  columns : list string;
  rows : list Row
}.

Definition schema : list string := ["Name"; "Amount"; "Category"; "Date"; "Comment"].

(** The keys of the dict built at lines 98-104, in their order. *)
Definition row_keys : list string := ["Name"; "Amount"; "Category"; "Date"; "Comment"].

(** [pd.DataFrame(columns=cols)] *)
Definition DataFrame_columns (cols : list string) : DataFrame :=
  {| columns := cols; rows := [] |}.

(** [pd.DataFrame(records)]: the columns are the keys of the records. *)
Definition DataFrame_records (records : list Row) : DataFrame :=
  {| columns := match records with [] => [] | _ :: _ => row_keys end;
     rows := records |}.

(** A cell of the ['Date'] column that [dropna] keeps. *)
Definition notna (r : Row) : bool :=
  match Date r with
  | Some (Ts _ _) => true
  | _ => false
  end.

(** [df.dropna(subset=['Date'])] *)
Definition dropna_Date (df : DataFrame) : DataFrame :=
  {| columns := columns df; rows := filter notna (rows df) |}.

Definition date_key (r : Row) : Z :=
  match Date r with
  | Some (Ts ns _) => ns
  | _ => 0
  end.

Definition aware (r : Row) : bool :=
  match Date r with
  | Some (Ts _ (Some _)) => true
  | _ => false
  end.

(** Stamps with a zone and stamps without one cannot be compared. *)
Definition comparable (l : list Row) : bool :=
  forallb aware l || forallb (fun r => negb (aware r)) l.

Fixpoint insert_row (r : Row) (l : list Row) : list Row :=
  match l with
  | [] => [r]
  | x :: l' => if date_key r <=? date_key x then r :: l else x :: insert_row r l'
  end.

Fixpoint sort_rows (l : list Row) : list Row :=
  match l with
  | [] => []
  | r :: l' => insert_row r (sort_rows l')
  end.

(** The order of the sorted column. *)
Definition date_le (a b : Row) : Prop := date_key a <= date_key b.

(** [df.sort_values('Date')], ascending.  pandas leaves the order among
    equal dates to its sorting routine; nothing below depends on it. *)
Definition sort_values_Date (df : DataFrame) : result DataFrame :=
  if comparable (rows df)
  then Ok {| columns := columns df; rows := sort_rows (rows df) |}
  else Raise TypeError.

(** ** Sources *)

(** [notion.databases.query(database_id=..., start_cursor=c)]; [None] is
    the call without a cursor. *)
Definition Source : Type := option value -> result value.

Inductive outcome (A : Type) : Type :=
| Returns (a : A)
| Raises (e : exn)
| OutOfFuel.

Arguments Returns {A} a.
Arguments Raises {A} e.
Arguments OutOfFuel {A}.

(** ** The row loop *)

Section Ingestion.

Context (P : Lib).

(** Lines 58-108.  [bound] tells whether the local [properties] has been
    assigned: the handler formats it into its log line. *)
Fixpoint process_rows (results : list value) (bound : bool)
    (processed_data : list Row) : result (list Row) :=
  match results with
  | [] => Ok processed_data
  | page :: rest =>
      match getitem page "properties" with
      | Raise _ =>
          if bound then process_rows rest bound processed_data
          else Raise UnboundLocalError
      | Ok properties =>
          match extract_row P properties with
          | Ok row => process_rows rest true (processed_data ++ [row])
          | Raise _ => process_rows rest true processed_data
          end
      end
  end.

(** Lines 57-118: from the accumulated raw rows to the table. *)
Definition ingest (results : list value) : result DataFrame :=
  processed_data <- process_rows results false [] ;;
  match processed_data with
  | [] => Ok (DataFrame_columns schema)
  | _ :: _ => sort_values_Date (dropna_Date (DataFrame_records processed_data))
  end.

(** ** Pagination *)

(** Lines 38-46. *)
Definition first_query (src : Source) : result (value * list value) :=
  query <- src None ;;
  r <- getitem query "results" ;;
  _ <- len r ;;
  _ <- (if truthy r
        then first <- getitem0 r ;; getitem first "properties"
        else Ok VNone) ;;
  items <- iterate r ;;
  Ok (query, items).

(** One turn of the [while] body, lines 50-55. *)
Definition next_query (src : Source) (query : value) : result (value * list value) :=
  cursor <- getitem query "next_cursor" ;;
  query' <- src (Some cursor) ;;
  r <- getitem query' "results" ;;
  items <- iterate r ;;
  _ <- len r ;;
  Ok (query', items).

(** Lines 49-55. *)
Fixpoint more_pages (src : Source) (fuel : nat) (query : value)
    (results : list value) : outcome (list value) :=
  match get query "has_more" (VBool false) with
  | Raise e => Raises e
  | Ok has_more =>
      if truthy has_more then
        match fuel with
        | O => OutOfFuel
        | S fuel' =>
            match next_query src query with
            | Raise e => Raises e
            | Ok (query', items) => more_pages src fuel' query' (results ++ items)
            end
        end
      else Returns results
  end.

Definition fetch (src : Source) (fuel : nat) : outcome (list value) :=
  match first_query src with
  | Raise e => Raises e
  | Ok (query, results) => more_pages src fuel query results
  end.

Definition load_data_from_notion (src : Source) (fuel : nat) : outcome DataFrame :=
  match fetch src fuel with
  | Returns results =>
      match ingest results with
      | Ok df => Returns df
      | Raise e => Raises e
      end
  | Raises e => Raises e
  | OutOfFuel => OutOfFuel
  end.

End Ingestion.

(** ** A sample library for running the model

    [iso_lib] reads the ISO-8601 shapes [YYYY-MM-DD],
    [YYYY-MM-DDTHH:MM:SS] and [YYYY-MM-DDTHH:MM:SSZ], on which it gives
    what pandas gives, and rejects every other string; its zone table is
    the one in force since 1945.  It only serves to evaluate the model on
    concrete rows. *)

Module Sample.

Definition digit (c : ascii) : option Z :=
  let n := Z.of_nat (nat_of_ascii c) in
  if (48 <=? n) && (n <=? 57) then Some (n - 48) else None.

Fixpoint digits (s : string) (acc : Z) : option Z :=
  match s with
  | EmptyString => Some acc
  | String c s' =>
      match digit c with
      | Some d => digits s' (10 * acc + d)
      | None => None
      end
  end.

Definition number (s : string) : option Z :=
  match s with
  | EmptyString => None
  | _ => digits s 0
  end.

Definition is_leap (y : Z) : bool :=
  (y mod 4 =? 0) && (negb (y mod 100 =? 0) || (y mod 400 =? 0)).

Definition days_in_month (y m : Z) : Z :=
  if m =? 2 then (if is_leap y then 29 else 28)
  else if (m =? 4) || (m =? 6) || (m =? 9) || (m =? 11) then 30
  else 31.

(** Day number since 1970-01-01 of a date of the Gregorian calendar. *)
Definition days_from_civil (y m d : Z) : Z :=
  let y' := if m <=? 2 then y - 1 else y in
  let era := y' / 400 in
  let yoe := y' - era * 400 in
  let mp := (m + 9) mod 12 in
  let doy := (153 * mp + 2) / 5 + d - 1 in
  let doe := yoe * 365 + yoe / 4 - yoe / 100 + doy in
  era * 146097 + doe - 719468.

Definition char_at (n : nat) (s : string) : string := substring n 1 s.

Definition iso_date (s : string) : option Z :=
  if String.eqb (char_at 4 s) "-" && String.eqb (char_at 7 s) "-" then
    match number (substring 0 4 s), number (substring 5 2 s), number (substring 8 2 s) with
    | Some y, Some m, Some d =>
        if (1 <=? m) && (m <=? 12) && (1 <=? d) && (d <=? days_in_month y m)
        then Some (days_from_civil y m d * ns_per_day)
        else None
    | _, _, _ => None
    end
  else None.

Definition iso_time (s : string) : option Z :=
  if String.eqb (char_at 2 s) ":" && String.eqb (char_at 5 s) ":" then
    match number (substring 0 2 s), number (substring 3 2 s), number (substring 6 2 s) with
    | Some h, Some mi, Some sec =>
        if (h <? 24) && (mi <? 60) && (sec <? 60)
        then Some ((h * 3600 + mi * 60 + sec) * ns_per_second)
        else None
    | _, _, _ => None
    end
  else None.

Definition checked (ns : Z) (tz : option tzinfo) : result stamp :=
  if in_bounds ns then Ok (Ts ns tz) else Raise OutOfBoundsDatetime.

Definition iso_datetime (s : string) : result stamp :=
  match String.length s with
  | 10%nat =>
      match iso_date s with
      | Some d => checked d None
      | None => Raise DateParseError
      end
  | 19%nat =>
      match iso_date (substring 0 10 s), iso_time (substring 11 8 s) with
      | Some d, Some t =>
          if String.eqb (char_at 10 s) "T" then checked (d + t) None
          else Raise DateParseError
      | _, _ => Raise DateParseError
      end
  | 20%nat =>
      match iso_date (substring 0 10 s), iso_time (substring 11 8 s) with
      | Some d, Some t =>
          if String.eqb (char_at 10 s) "T" && String.eqb (char_at 19 s) "Z"
          then checked (d + t) (Some UTC)
          else Raise DateParseError
      | _, _ => Raise DateParseError
      end
  | _ => Raise DateParseError
  end.

Definition parse (v : value) : result stamp :=
  match v with
  | VStr s => if String.eqb s "" then Ok NaT else iso_datetime s
  | _ => Raise TypeError
  end.

Definition decimal (s : string) : option float :=
  match number s with
  | Some z => match float_of_int z with Ok f => Some f | Raise _ => None end
  | None => None
  end.

Definition iso_lib : Lib :=
  {| to_datetime_mixed := parse;
     to_datetime := parse;
     kolkata_utcoffset := fun _ => IST_offset;
     float_of_str := decimal |}.

(** Builders for the JSON of a Notion page. *)

Definition title_prop (s : string) : value :=
  VDict [("title", VList [VDict [("text", VDict [("content", VStr s)])]])].

Definition rich_text_prop (s : string) : value :=
  VDict [("rich_text", VList [VDict [("text", VDict [("content", VStr s)])]])].

Definition select_prop (s : string) : value :=
  VDict [("select", VDict [("name", VStr s)])].

Definition number_prop (n : value) : value := VDict [("number", n)].

Definition date_prop (s : string) : value :=
  VDict [("date", VDict [("start", VStr s)])].

Definition page (properties : list (string * value)) : value :=
  VDict [("object", VStr "page"); ("properties", VDict properties)].

Definition expense (name : string) (amount : Z) (category date : string) : value :=
  page [("Name", title_prop name); ("Amount", number_prop (VInt amount));
        ("Category", select_prop category); ("Date", date_prop date);
        ("Comment", rich_text_prop "")].

(** A source serving the given pages; the cursor of page [i] is [VInt i]. *)
Definition response (pages : list (list value)) (i : nat) : result value :=
  match nth_error pages i with
  | Some rows =>
      Ok (VDict [("results", VList rows);
                 ("has_more", VBool (Nat.ltb (S i) (List.length pages)));
                 ("next_cursor", VInt (Z.of_nat (S i)))])
  | None => Raise APIResponseError
  end.

Definition paged_source (pages : list (list value)) : Source :=
  fun cursor =>
    match cursor with
    | None => response pages 0
    | Some (VInt i) => response pages (Z.to_nat i)
    | Some _ => Raise APIResponseError
    end.

End Sample.

(** ** The rows that go through

    Notions used to state what the loop computes. *)

Section Survivors.

Context (P : Lib).

(** What the body of the row's [try] yields for one raw row. *)
Definition normalise_page (page : value) : result Row :=
  properties <- getitem page "properties" ;;
  extract_row P properties.

Definition survivor (page : value) : list Row :=
  match normalise_page page with
  | Ok row => [row]
  | Raise _ => []
  end.

Definition survivors (results : list value) : list Row := flat_map survivor results.

Definition has_properties (page : value) : bool :=
  match getitem page "properties" with
  | Ok _ => true
  | Raise _ => false
  end.

(** The first raw row, when there is one, binds [properties]. *)
Definition first_bound (results : list value) : bool :=
  match results with
  | [] => true
  | page :: _ => has_properties page
  end.

(** The table [ingest] builds from the rows that went through. *)
Definition table_of (processed : list Row) : result DataFrame :=
  match processed with
  | [] => Ok (DataFrame_columns schema)
  | _ :: _ => sort_values_Date (dropna_Date (DataFrame_records processed))
  end.

End Survivors.

(** ** The category as the specification words it

    "Check three possible representations in fixed priority order:
    single-select, multi-select (take first entry), rich-text (take first
    fragment); first non-empty match wins; absent entirely yields empty
    string."  This is the reading of that sentence, to be compared with
    [extract_category]. *)

Definition select_name (d : list (string * value)) : option value :=
  match lookup "select" d with
  | Some (VDict sel) => lookup "name" sel
  | _ => None
  end.

Definition multi_select_first (d : list (string * value)) : option value :=
  match lookup "multi_select" d with
  | Some (VList (VDict entry :: _)) => lookup "name" entry
  | _ => None
  end.

Definition rich_text_first (d : list (string * value)) : option value :=
  match lookup "rich_text" d with
  | Some (VList (VDict fragment :: _)) =>
      match lookup "text" fragment with
      | Some (VDict text) => lookup "content" text
      | _ => None
      end
  | _ => None
  end.

Fixpoint first_nonempty (candidates : list (option value)) : value :=
  match candidates with
  | [] => VStr ""
  | Some v :: rest => if truthy v then v else first_nonempty rest
  | None :: rest => first_nonempty rest
  end.

Definition category_first_nonempty (category_prop : value) : value :=
  match category_prop with
  | VDict d => first_nonempty [select_name d; multi_select_first d; rich_text_first d]
  | _ => VStr ""
  end.

(** Sample rows. *)

Module Rows.
Import Sample.

Definition january : list (list value) :=
  [ [ expense "Lunch" 250 "Food" "2024-01-15T20:00:00Z";
      expense "Bus" 40 "Travel" "2024-01-14" ];
    [ expense "Rent" 7000 "Home" "2023-12-31T19:00:00" ] ].

(** A row with no property at all: every field takes its default and the
    date is [None]. *)
Definition blank : value := page [].

(** A row whose title fragment has a null ["text"]. *)
Definition null_text : value :=
  page [("Name", VDict [("title", VList [VDict [("text", VNone)]])]);
        ("Amount", number_prop (VInt 120));
        ("Category", select_prop "Food");
        ("Date", date_prop "2024-01-15")].

(** A category property whose single-select is null while its
    multi-select holds an entry. *)
Definition null_select : value :=
  VDict [("select", VNone);
         ("multi_select", VList [VDict [("name", VStr "Food")]])].

(** A category property with a single-select and a rich text. *)
Definition select_and_text : value :=
  VDict [("rich_text", VList [VDict [("text", VDict [("content", VStr "Misc")])]]);
         ("select", VDict [("name", VStr "Food")])].

Definition morning : value := expense "Tea" 20 "Food" "2024-01-15T10:30:00Z".

Definition unknown_date : value := expense "Tea" 20 "Food" "unknown".

Definition refund : value := expense "Refund" (-5) "Food" "2024-01-15".

End Rows.

(** ** Paginated sources and row counts *)

(** [serves src cursor pages]: queried from [cursor] on, the source hands
    out the pages [pages] one after the other, each but the last with a
    true ["has_more"] and the cursor of the next, the last with a false
    or missing ["has_more"].  A page is given by the rows that
    [results.extend] takes from it. *)
Inductive serves (src : Source) : option value -> list (list value) -> Prop :=
| serves_last cursor query r items has_more :
    src cursor = Ok query ->
    getitem query "results" = Ok r ->
    iterate r = Ok items ->
    get query "has_more" (VBool false) = Ok has_more ->
    truthy has_more = false ->
    serves src cursor [items]
| serves_more cursor query r items has_more next rest :
    src cursor = Ok query ->
    getitem query "results" = Ok r ->
    iterate r = Ok items ->
    get query "has_more" (VBool false) = Ok has_more ->
    truthy has_more = true ->
    getitem query "next_cursor" = Ok next ->
    serves src (Some next) rest ->
    serves src cursor (items :: rest).

Definition total_rows (pages : list (list value)) : nat :=
  list_sum (map (@List.length value) pages).

Section Counts.

Context (P : Lib).

Definition fails (page : value) : bool :=
  match normalise_page P page with
  | Ok _ => false
  | Raise _ => true
  end.

(** Rows on which the body of the row's [try] raises. *)
Definition failures (results : list value) : nat :=
  List.length (filter fails results).

(** Rows that go through with a date that [dropna] drops. *)
Definition undated (results : list value) : nat :=
  List.length (filter (fun r => negb (notna r)) (survivors P results)).

End Counts.

(** ** Sources that fail, sources that never end *)

(** [breaks src e cursor pages]: queried from [cursor] on, the source
    hands out the pages [pages], each announcing more, and then the
    paging raises [e]: the next query fails, or its answer has no
    ["results"], or the last page handed out announces more without a
    ["next_cursor"]. *)
Inductive breaks (src : Source) (e : exn) : option value -> list (list value) -> Prop :=
| breaks_query cursor :
    src cursor = Raise e ->
    breaks src e cursor []
| breaks_results cursor query :
    src cursor = Ok query ->
    getitem query "results" = Raise e ->
    breaks src e cursor []
| breaks_cursor cursor query r items has_more :
    src cursor = Ok query ->
    getitem query "results" = Ok r ->
    iterate r = Ok items ->
    get query "has_more" (VBool false) = Ok has_more ->
    truthy has_more = true ->
    getitem query "next_cursor" = Raise e ->
    breaks src e cursor [items]
| breaks_later cursor query r items has_more next rest :
    src cursor = Ok query ->
    getitem query "results" = Ok r ->
    iterate r = Ok items ->
    get query "has_more" (VBool false) = Ok has_more ->
    truthy has_more = true ->
    getitem query "next_cursor" = Ok next ->
    breaks src e (Some next) rest ->
    breaks src e cursor (items :: rest).

(** A source every answer of which is a page that announces a next one. *)
Definition endless (src : Source) : Prop :=
  forall cursor, exists query r items has_more next,
    src cursor = Ok query /\
    getitem query "results" = Ok r /\
    iterate r = Ok items /\
    get query "has_more" (VBool false) = Ok has_more /\
    truthy has_more = true /\
    getitem query "next_cursor" = Ok next.

Module Sources.

(** One page that announces a second one, which the service refuses. *)
Definition flaky : Source :=
  fun cursor =>
    match cursor with
    | None => Ok (VDict [("results", VList [Rows.morning]);
                         ("has_more", VBool true);
                         ("next_cursor", VStr "c1")])
    | Some _ => Raise APIResponseError
    end.

(** The same empty page over and over, always announcing more. *)
Definition looping : Source :=
  fun _ => Ok (VDict [("results", VList []);
                      ("has_more", VBool true);
                      ("next_cursor", VStr "again")]).

(** The rows of [Rows.january] on a single page. *)
Definition one_page : Source := Sample.paged_source [List.concat Rows.january].

End Sources.

(** ** Presentation: the date filter and the recent transactions *)

Inductive view (A : Type) : Type :=
| Halted
| Shown (a : A)
| Crashed (e : exn).

Arguments Halted {A}.
Arguments Shown {A} a.
Arguments Crashed {A} e.

(** [data.empty] *)
Definition empty (df : DataFrame) : bool :=
  match rows df with
  | [] => true
  | _ :: _ => false
  end.

Definition tzinfo_eqb (a b : tzinfo) : bool :=
  match a, b with
  | UTC, UTC => true
  | Asia_Kolkata, Asia_Kolkata => true
  | FixedOffset x, FixedOffset y => x =? y
  | _, _ => false
  end.

Definition zone_eqb (a b : option tzinfo) : bool :=
  match a, b with
  | None, None => true
  | Some x, Some y => tzinfo_eqb x y
  | _, _ => false
  end.

Definition zone (r : Row) : option tzinfo :=
  match Date r with
  | Some (Ts _ tz) => tz
  | _ => None
  end.

(** Whether the ['Date'] column built from these cells is a datetime
    column, on which the [.dt] accessor works: some cell is not [None],
    and the stamps carry no zone, or all the same one.  Otherwise the
    column holds plain objects. *)
Definition datetimelike (l : list Row) : bool :=
  existsb (fun r => match Date r with Some _ => true | None => false end) l &&
  match filter notna l with
  | [] => true
  | r :: rest => forallb (fun x => zone_eqb (zone r) (zone x)) rest
  end.

Section Presentation.

Context (P : Lib).

(** An element of [data['Date'].dt.date]: the calendar date of the stamp,
    read in its zone when it has one; nothing for a missing date. *)
Definition local_date (r : Row) : option Z :=
  match Date r with
  | Some (Ts ns None) => Some (calendar_date ns)
  | Some (Ts ns (Some tz)) => Some (calendar_date (ns + utcoffset P tz ns))
  | _ => None
  end.

(** [(d >= start_date) & (d <= end_date)]; a missing date compares false. *)
Definition in_range (start_date end_date : Z) (r : Row) : bool :=
  match local_date r with
  | Some d => (start_date <=? d) && (d <=? end_date)
  | None => false
  end.

(** Lines 137-158: the script stops on an empty table; otherwise a range
    of two dates selects the rows whose day lies between them, and any
    other selection leaves the table as it is.  [date_range] is what the
    date widget returns, as day numbers. *)
Definition date_filter (data : DataFrame) (date_range : list Z) : view DataFrame :=
  if empty data then Halted
  else
    match date_range with
    | [start_date; end_date] =>
        if datetimelike (rows data)
        then Shown {| columns := columns data;
                      rows := filter (in_range start_date end_date) (rows data) |}
        else Crashed AttributeError
    | _ => Shown data
    end.

End Presentation.

(** A date that is there and carries no zone. *)
Definition naive_dated (r : Row) : bool := notna r && negb (aware r).

Definition date_ge (a b : Row) : Prop := date_key b <= date_key a.

Fixpoint insert_row_desc (r : Row) (l : list Row) : list Row :=
  match l with
  | [] => [r]
  | x :: l' => if date_key x <=? date_key r then r :: l else x :: insert_row_desc r l'
  end.

Fixpoint sort_rows_desc (l : list Row) : list Row :=
  match l with
  | [] => []
  | r :: l' => insert_row_desc r (sort_rows_desc l')
  end.

(** [df.sort_values('Date', ascending=False)]: latest first, the rows
    without a date last. *)
Definition sort_values_Date_descending (df : DataFrame) : result DataFrame :=
  let dated := filter notna (rows df) in
  if comparable dated
  then Ok {| columns := columns df;
             rows := sort_rows_desc dated ++ filter (fun r => negb (notna r)) (rows df) |}
  else Raise TypeError.

(** [df.head(n)] *)
Definition head (n : nat) (df : DataFrame) : DataFrame :=
  {| columns := columns df; rows := firstn n (rows df) |}.

(** Lines 290-291. *)
Definition recent_transactions (filtered_data : DataFrame) : result DataFrame :=
  sorted <- sort_values_Date_descending filtered_data ;;
  Ok (head 10 sorted).

(** The order of the recent transactions: among rows with a date the
    later one comes first, and no row without a date comes before a row
    with one. *)
Definition recent_first (a b : Row) : Prop :=
  (notna a = true -> notna b = true -> date_key b <= date_key a) /\
  (notna a = false -> notna b = false).

Module SampleDateOnly.

(** A fallback parser that reads [YYYY-MM-DD] only. *)
Definition parse_date_only (v : value) : result stamp :=
  match v with
  | VStr s =>
      match Sample.iso_date s with
      | Some d => Sample.checked d None
      | None => Raise DateParseError
      end
  | _ => Raise TypeError
  end.

Definition lib : Lib :=
  {| to_datetime_mixed := Sample.parse;
     to_datetime := parse_date_only;
     kolkata_utcoffset := fun _ => IST_offset;
     float_of_str := Sample.decimal |}.

End SampleDateOnly.

(** * Properties *)

(** ** Sorting by date *)

Lemma insert_row_perm r l : Permutation (insert_row r l) (r :: l).
Proof.
  induction l as [|x l IH]; simpl.
  - apply Permutation_refl.
  - destruct (date_key r <=? date_key x).
    + apply Permutation_refl.
    + eapply perm_trans; [apply perm_skip, IH | apply perm_swap].
Qed.

Lemma sort_rows_perm l : Permutation (sort_rows l) l.
Proof.
  induction l as [|r l IH]; simpl.
  - constructor.
  - eapply perm_trans; [apply insert_row_perm | apply perm_skip, IH].
Qed.

Lemma insert_row_hd r a l :
  date_le a r -> HdRel date_le a l -> HdRel date_le a (insert_row r l).
Proof.
  intros Har Hal. destruct l as [|x l]; simpl.
  - constructor; exact Har.
  - destruct (date_key r <=? date_key x); constructor.
    + exact Har.
    + inversion Hal; assumption.
Qed.

Lemma insert_row_sorted r l : Sorted date_le l -> Sorted date_le (insert_row r l).
Proof.
  induction 1 as [|x l Hs IH Hhd]; simpl.
  - repeat constructor.
  - destruct (date_key r <=? date_key x) eqn:E.
    + constructor; [constructor; assumption|].
      constructor. apply Z.leb_le in E. exact E.
    + constructor; [exact IH|].
      apply insert_row_hd; [|exact Hhd].
      apply Z.leb_gt in E. unfold date_le. lia.
Qed.

Lemma sort_rows_sorted l : Sorted date_le (sort_rows l).
Proof.
  induction l as [|r l IH]; simpl.
  - constructor.
  - apply insert_row_sorted, IH.
Qed.

Lemma sort_rows_length l : List.length (sort_rows l) = List.length l.
Proof. apply Permutation_length, sort_rows_perm. Qed.

Lemma sort_rows_forall (Q : Row -> Prop) l : Forall Q l -> Forall Q (sort_rows l).
Proof.
  intros H. apply Forall_forall. intros r Hr.
  eapply Forall_forall in H; [exact H|].
  eapply Permutation_in; [apply sort_rows_perm | exact Hr].
Qed.

Lemma filter_notna_forall l : Forall (fun r => notna r = true) (filter notna l).
Proof.
  apply Forall_forall. intros r Hr. apply filter_In in Hr. tauto.
Qed.

Lemma notna_valid r : notna r = true -> exists ns tz, Date r = Some (Ts ns tz).
Proof.
  unfold notna. destruct (Date r) as [[|ns tz]|]; try discriminate.
  intros _. now exists ns, tz.
Qed.

(** ** The row loop and its accumulator *)

Section Loop.

Context (P : Lib).

Lemma process_rows_bound results : forall acc,
  process_rows P results true acc = Ok (acc ++ survivors P results).
Proof.
  induction results as [|page rest IH]; intros acc; simpl.
  - now rewrite app_nil_r.
  - unfold survivor, normalise_page.
    destruct (getitem page "properties") as [props|e]; simpl.
    + destruct (extract_row P props) as [row|e]; rewrite IH; simpl.
      * now rewrite <- app_assoc.
      * reflexivity.
    + apply IH.
Qed.

Lemma process_rows_first_bound results acc :
  first_bound results = true ->
  process_rows P results false acc = Ok (acc ++ survivors P results).
Proof.
  destruct results as [|page rest]; simpl.
  - intros _. now rewrite app_nil_r.
  - unfold has_properties, survivor, normalise_page.
    destruct (getitem page "properties") as [props|e]; simpl; [|discriminate].
    intros _.
    destruct (extract_row P props) as [row|e]; rewrite process_rows_bound; simpl.
    + now rewrite <- app_assoc.
    + reflexivity.
Qed.

Lemma process_rows_unbound page rest acc :
  has_properties page = false ->
  process_rows P (page :: rest) false acc = Raise UnboundLocalError.
Proof.
  unfold has_properties. simpl.
  destruct (getitem page "properties"); [discriminate | reflexivity].
Qed.

Lemma process_rows_inv results processed :
  process_rows P results false [] = Ok processed ->
  processed = survivors P results.
Proof.
  destruct (first_bound results) eqn:E.
  - rewrite (process_rows_first_bound _ _ E). simpl. congruence.
  - destruct results as [|page rest]; [discriminate|].
    simpl in E. rewrite (process_rows_unbound _ _ _ E). discriminate.
Qed.

Lemma ingest_first_bound results :
  first_bound results = true ->
  ingest P results = table_of (survivors P results).
Proof.
  intros H. unfold ingest. rewrite (process_rows_first_bound _ _ H). reflexivity.
Qed.

Lemma table_of_rows processed df :
  table_of processed = Ok df ->
  columns df = schema /\ rows df = sort_rows (filter notna processed).
Proof.
  destruct processed as [|r l]; simpl.
  - intros H. injection H as <-. split; reflexivity.
  - unfold sort_values_Date.
    destruct (comparable _); [|discriminate].
    intros H. injection H as <-. split; reflexivity.
Qed.

Lemma table_of_comparable processed :
  comparable (filter notna processed) = true ->
  table_of processed =
    Ok {| columns := schema; rows := sort_rows (filter notna processed) |}.
Proof.
  destruct processed as [|r l]; intros H.
  - reflexivity.
  - unfold table_of, sort_values_Date. cbn [rows dropna_Date DataFrame_records].
    rewrite H. reflexivity.
Qed.

Lemma ingest_rows results df :
  ingest P results = Ok df ->
  columns df = schema /\ rows df = sort_rows (filter notna (survivors P results)).
Proof.
  unfold ingest.
  destruct (process_rows P results false []) as [processed|e] eqn:E; [|discriminate].
  simpl. apply process_rows_inv in E. subst processed.
  apply table_of_rows.
Qed.

Lemma load_data_inv src fuel df :
  load_data_from_notion P src fuel = Returns df ->
  exists results, fetch src fuel = Returns results /\ ingest P results = Ok df.
Proof.
  unfold load_data_from_notion.
  destruct (fetch src fuel) as [results|e|]; try discriminate.
  destruct (ingest P results) as [df'|e] eqn:E; try discriminate.
  intros H. injection H as <-. now exists results.
Qed.

End Loop.

(** ** C3: the dates of the produced table *)

(** C3. Whatever the source and the libraries, every record of a table
    that [load_data_from_notion] returns has a date that is a proper
    timestamp (neither [None] nor [NaT]), and the records come in
    ascending order of date. *)
Theorem produced_table_dated_and_sorted (P : Lib) (src : Source) (fuel : nat) (df : DataFrame) :
  load_data_from_notion P src fuel = Returns df ->
  Forall (fun r => exists ns tz, Date r = Some (Ts ns tz)) (rows df) /\
  Sorted date_le (rows df).
Proof.
  intros H. apply load_data_inv in H as (results & _ & H).
  apply ingest_rows in H as [_ ->]. split.
  - apply sort_rows_forall.
    eapply Forall_impl; [|apply filter_notna_forall].
    intros r; apply notna_valid.
  - apply sort_rows_sorted.
Qed.

Lemma produced_table_dated_and_sorted_witness :
  exists df,
    load_data_from_notion Sample.iso_lib (Sample.paged_source Rows.january) 1 = Returns df /\
    Forall (fun r => exists ns tz, Date r = Some (Ts ns tz)) (rows df) /\
    Sorted date_le (rows df).
Proof.
  eexists. split.
  - vm_compute. reflexivity.
  - apply (produced_table_dated_and_sorted Sample.iso_lib
             (Sample.paged_source Rows.january) 1).
    vm_compute. reflexivity.
Defined.

(** ** C9: the empty result *)

(** X18. When the fetch hands over a batch, the row loop runs through it
    (which takes a first row, if any, that has its ["properties"]) and
    none of the rows it produced has a date that [dropna] keeps, the
    ingestion returns (it does not raise) a table without rows whose
    columns are Name, Amount, Category, Date, Comment.  This covers both
    ways of ending with nothing: no row produced at all, and every
    produced row dropped for its date. *)
Theorem empty_result_keeps_schema (P : Lib) (src : Source) (fuel : nat)
    (results : list value) (processed : list Row) :
  fetch src fuel = Returns results ->
  process_rows P results false [] = Ok processed ->
  filter notna processed = [] ->
  load_data_from_notion P src fuel =
    Returns {| columns := ["Name"; "Amount"; "Category"; "Date"; "Comment"]; rows := [] |}.
Proof.
  intros Hfetch Hloop Hnone.
  unfold load_data_from_notion, ingest. rewrite Hfetch, Hloop. simpl.
  fold (table_of processed).
  rewrite table_of_comparable; rewrite Hnone; reflexivity.
Qed.

Lemma empty_result_keeps_schema_witness :
  load_data_from_notion Sample.iso_lib
    (Sample.paged_source [[Rows.blank; Rows.null_text]]) 0 =
    Returns {| columns := ["Name"; "Amount"; "Category"; "Date"; "Comment"]; rows := [] |}.
Proof.
  apply (empty_result_keeps_schema Sample.iso_lib _ 0
           [Rows.blank; Rows.null_text]
           [ {| Name := VStr ""; Amount := float_zero; Category := VStr "";
                Date := None; Comment := VStr "" |} ]);
    vm_compute; reflexivity.
Defined.

(** ** C1: the category *)

Lemma lookup_truthy k d v : lookup k d = Some v -> truthy (VDict d) = true.
Proof. destruct d; [discriminate | reflexivity]. Qed.

Lemma extract_category_dict d :
  d <> [] ->
  extract_category (VDict d) =
    match lookup "select" d with
    | Some sel => if truthy sel then getitem sel "name" else Ok (VStr "")
    | None =>
        match lookup "multi_select" d with
        | Some ms =>
            if truthy ms then first <- getitem0 ms ;; getitem first "name"
            else Ok (VStr "")
        | None =>
            match lookup "rich_text" d with
            | Some rt =>
                if truthy rt then
                  first <- getitem0 rt ;;
                  text <- getitem first "text" ;;
                  getitem text "content"
                else Ok (VStr "")
            | None => Ok (VStr "")
            end
        end
    end.
Proof.
  intros Hd. unfold extract_category.
  replace (truthy (VDict d)) with true by (destruct d; [contradiction | reflexivity]).
  unfold contains, getitem at 1 3 6. simpl bind.
  destruct (lookup "select" d); [reflexivity|].
  destruct (lookup "multi_select" d); [reflexivity|].
  destruct (lookup "rich_text" d); reflexivity.
Qed.

(** C1, as stated, fails: with a null single-select and a filled
    multi-select the first non-empty representation is the multi-select
    entry, yet the code stops at the ["select"] key and yields the empty
    string. *)
Lemma first_nonempty_match_does_not_win :
  category_first_nonempty Rows.null_select = VStr "Food" /\
  extract_category Rows.null_select = Ok (VStr "") /\
  extract_category Rows.null_select <> Ok (category_first_nonempty Rows.null_select).
Proof.
  repeat split; try reflexivity. vm_compute. discriminate.
Qed.

(** C1, amended. The three representations are tried in the order
    single-select, multi-select, rich-text, and the first one whose key is
    PRESENT in the category property decides, also when its value is empty
    (null or an empty list), in which case the category is the empty
    string.  So a present, filled single-select is chosen whatever else
    the property holds; a multi-select gives the name of its first entry
    and a rich text the content of its first fragment; a property without
    any of the three keys, and a row without the category field, give the
    empty string. *)
Theorem category_first_present_key_wins :
  (forall d sel n,
      lookup "select" d = Some (VDict sel) -> sel <> [] ->
      lookup "name" sel = Some n ->
      extract_category (VDict d) = Ok n) /\
  (forall d sel,
      lookup "select" d = Some sel -> truthy sel = false ->
      extract_category (VDict d) = Ok (VStr "")) /\
  (forall d entry rest n,
      lookup "select" d = None ->
      lookup "multi_select" d = Some (VList (VDict entry :: rest)) ->
      lookup "name" entry = Some n ->
      extract_category (VDict d) = Ok n) /\
  (forall d ms,
      lookup "select" d = None ->
      lookup "multi_select" d = Some ms -> truthy ms = false ->
      extract_category (VDict d) = Ok (VStr "")) /\
  (forall d fragment rest text c,
      lookup "select" d = None -> lookup "multi_select" d = None ->
      lookup "rich_text" d = Some (VList (VDict fragment :: rest)) ->
      lookup "text" fragment = Some (VDict text) ->
      lookup "content" text = Some c ->
      extract_category (VDict d) = Ok c) /\
  (forall d rt,
      lookup "select" d = None -> lookup "multi_select" d = None ->
      lookup "rich_text" d = Some rt -> truthy rt = false ->
      extract_category (VDict d) = Ok (VStr "")) /\
  (forall d,
      lookup "select" d = None -> lookup "multi_select" d = None ->
      lookup "rich_text" d = None ->
      extract_category (VDict d) = Ok (VStr "")) /\
  (forall properties,
      lookup "Category" properties = None ->
      (category_prop <- get (VDict properties) "Category" empty_dict ;;
       extract_category category_prop) = Ok (VStr "")).
Proof.
  assert (Hne : forall k d v, lookup k d = Some v -> d <> [])
    by (intros k d v H ->; discriminate).
  repeat split.
  - intros d sel n Hsel Hsel' Hn.
    rewrite (extract_category_dict _ (Hne _ _ _ Hsel)), Hsel.
    destruct sel; [contradiction|]. simpl truthy. cbv iota.
    unfold getitem. now rewrite Hn.
  - intros d sel Hsel Hf.
    now rewrite (extract_category_dict _ (Hne _ _ _ Hsel)), Hsel, Hf.
  - intros d entry rest n Hsel Hms Hn.
    rewrite (extract_category_dict _ (Hne _ _ _ Hms)), Hsel, Hms. simpl.
    now rewrite Hn.
  - intros d ms Hsel Hms Hf.
    now rewrite (extract_category_dict _ (Hne _ _ _ Hms)), Hsel, Hms, Hf.
  - intros d fragment rest text c Hsel Hms Hrt Ht Hc.
    rewrite (extract_category_dict _ (Hne _ _ _ Hrt)), Hsel, Hms, Hrt. simpl.
    rewrite Ht. simpl. now rewrite Hc.
  - intros d rt Hsel Hms Hrt Hf.
    now rewrite (extract_category_dict _ (Hne _ _ _ Hrt)), Hsel, Hms, Hrt, Hf.
  - intros d Hsel Hms Hrt.
    destruct d as [|kv d]; [reflexivity|].
    rewrite extract_category_dict by discriminate.
    now rewrite Hsel, Hms, Hrt.
  - intros properties H. simpl. now rewrite H.
Qed.

Lemma category_first_present_key_wins_witness :
  extract_category Rows.select_and_text = Ok (VStr "Food") /\
  extract_category Rows.null_select = Ok (VStr "") /\
  (category_prop <- get (VDict [("Name", Sample.title_prop "Tea")]) "Category" empty_dict ;;
   extract_category category_prop) = Ok (VStr "").
Proof.
  destruct category_first_present_key_wins
    as (Hsel & Hnull & _ & _ & _ & _ & _ & Habsent).
  split; [|split].
  - apply (Hsel _ [("name", VStr "Food")]); [reflexivity | discriminate | reflexivity].
  - apply (Hnull _ VNone); reflexivity.
  - apply Habsent. reflexivity.
Defined.

(** ** The date of a row *)

Lemma truthy_str s : s <> "" -> truthy (VStr s) = true.
Proof.
  intros H. simpl. apply negb_true_iff. now apply String.eqb_neq.
Qed.

Section Dates.

Context (P : Lib).

(** The inner [try] on a string that parses: the instant is read in the
    zone Asia/Kolkata and the zone is then removed. *)
Lemma parse_aware_parsed s ns tz :
  to_datetime_mixed P (VStr s) = Ok (Ts ns tz) ->
  parse_aware P (VStr s) =
    if in_bounds (ns + kolkata_utcoffset P ns)
    then Ok (Ts (ns + kolkata_utcoffset P ns) None)
    else Raise OutOfBoundsDatetime.
Proof.
  intros H. unfold parse_aware. rewrite H. destruct tz; reflexivity.
Qed.

Lemma parse_date_parsed s ns tz :
  s <> "" ->
  to_datetime_mixed P (VStr s) = Ok (Ts ns tz) ->
  in_bounds (ns + kolkata_utcoffset P ns) = true ->
  parse_date P (VStr s) = Ok (Some (Ts (ns + kolkata_utcoffset P ns) None)).
Proof.
  intros Hs Hp Hb. unfold parse_date.
  rewrite (truthy_str _ Hs), (parse_aware_parsed _ _ _ Hp), Hb. reflexivity.
Qed.

Lemma extract_row_date properties row :
  extract_row P properties = Ok row ->
  exists date_value,
    date_start properties = Ok date_value /\
    parse_date P date_value = Ok (Date row).
Proof.
  unfold extract_row.
  destruct (date_start properties) as [dv|]; [|discriminate]. simpl.
  destruct (get properties "Category" empty_dict) as [cp|]; [|discriminate]. simpl.
  destruct (extract_category cp) as [cv|]; [|discriminate]. simpl.
  destruct (parse_date P dv) as [pd|] eqn:Epd; [|discriminate]. simpl.
  destruct (first_content properties "Name" "title"); [|discriminate]. simpl.
  destruct (extract_amount P properties); [|discriminate]. simpl.
  destruct (first_content properties "Comment" "rich_text"); [|discriminate]. simpl.
  intros H. injection H as <-. exists dv. split; [reflexivity | exact Epd].
Qed.

Lemma extract_row_date_raises properties date_value e :
  date_start properties = Ok date_value ->
  parse_date P date_value = Raise e ->
  exists e', extract_row P properties = Raise e'.
Proof.
  intros Hd Hp. unfold extract_row. rewrite Hd. simpl.
  destruct (get properties "Category" empty_dict) as [cp|e1]; [|now exists e1]. simpl.
  destruct (extract_category cp) as [cv|e2]; [|now exists e2]. simpl.
  rewrite Hp. now exists e.
Qed.

End Dates.

(** ** C2: what the date of a record is *)

(** C2, as stated, fails: the date of the record keeps its time of day.
    The row dated 2024-01-15T10:30:00Z gets the zone-less local reading
    2024-01-15 16:00, which is not the bare calendar date. *)
Lemma time_of_day_is_kept :
  exists row ns,
    normalise_page Sample.iso_lib Rows.morning = Ok row /\
    Date row = Some (Ts ns None) /\
    calendar_date ns = Sample.days_from_civil 2024 1 15 /\
    time_of_day ns = 16 * 3600 * ns_per_second /\
    Date row <> Some (Ts (calendar_date ns * ns_per_day) None).
Proof.
  eexists. exists 1705334400000000000.
  split; [vm_compute; reflexivity|].
  repeat split; vm_compute; discriminate.
Qed.

(** C2, amended. A date string that the flexible parser reads is taken as
    an instant (in UTC when the string names no zone), shifted to the
    zone Asia/Kolkata, that is by +5:30 wherever the zone stands at that
    offset, and then stripped of the zone only: the date of the record
    is the zone-less local date and time, time of day included, and its
    calendar date is the local calendar date. *)
Theorem date_is_local_wall_clock (P : Lib) (s : string) (ns : Z) (tz : option tzinfo) :
  s <> "" ->
  to_datetime_mixed P (VStr s) = Ok (Ts ns tz) ->
  kolkata_utcoffset P ns = IST_offset ->
  in_bounds (ns + IST_offset) = true ->
  parse_date P (VStr s) = Ok (Some (Ts (ns + IST_offset) None)) /\
  (forall properties row,
      date_start properties = Ok (VStr s) ->
      extract_row P properties = Ok row ->
      Date row = Some (Ts (ns + IST_offset) None)) /\
  time_of_day (ns + IST_offset) = (time_of_day ns + IST_offset) mod ns_per_day.
Proof.
  intros Hs Hp Hoff Hb.
  assert (Hd : parse_date P (VStr s) = Ok (Some (Ts (ns + IST_offset) None))).
  { rewrite <- Hoff in *. now apply parse_date_parsed with tz. }
  split; [exact Hd|]. split.
  - intros properties row Hstart Hrow.
    apply extract_row_date in Hrow as (dv & Hdv & Hrow).
    rewrite Hstart in Hdv. injection Hdv as <-.
    rewrite Hd in Hrow. now injection Hrow as <-.
  - unfold time_of_day. now rewrite Z.add_mod_idemp_l by discriminate.
Qed.

Lemma date_is_local_wall_clock_witness :
  parse_date Sample.iso_lib (VStr "2024-01-15T20:00:00") =
    Ok (Some (Ts (1705348800000000000 + IST_offset) None)).
Proof.
  apply (date_is_local_wall_clock Sample.iso_lib "2024-01-15T20:00:00"
           1705348800000000000 None);
    [discriminate | reflexivity | reflexivity | reflexivity].
Defined.

(** ** C8: a string without a zone and the same string marked UTC *)

(** C8. Take a date string without a zone and one with an explicit UTC
    marker that the parser reads as the same date and time.  Both rows
    get the same date, hence the same calendar date: the reading shifted
    to Asia/Kolkata.  The shifted reading is assumed to fit a timestamp. *)
Theorem naive_and_utc_agree (P : Lib) (s_naive s_utc : string) (ns : Z) :
  s_naive <> "" -> s_utc <> "" ->
  to_datetime_mixed P (VStr s_naive) = Ok (Ts ns None) ->
  to_datetime_mixed P (VStr s_utc) = Ok (Ts ns (Some UTC)) ->
  in_bounds (ns + kolkata_utcoffset P ns) = true ->
  parse_date P (VStr s_naive) = parse_date P (VStr s_utc) /\
  parse_date P (VStr s_naive) = Ok (Some (Ts (ns + kolkata_utcoffset P ns) None)) /\
  (forall p1 p2 r1 r2,
      date_start p1 = Ok (VStr s_naive) -> date_start p2 = Ok (VStr s_utc) ->
      extract_row P p1 = Ok r1 -> extract_row P p2 = Ok r2 ->
      Date r1 = Date r2 /\
      calendar_date (date_key r1) = calendar_date (date_key r2) /\
      calendar_date (date_key r1) = calendar_date (ns + kolkata_utcoffset P ns)).
Proof.
  intros H1 H2 Hp1 Hp2 Hb.
  pose proof (parse_date_parsed P _ _ _ H1 Hp1 Hb) as E1.
  pose proof (parse_date_parsed P _ _ _ H2 Hp2 Hb) as E2.
  split; [congruence|]. split; [exact E1|].
  intros p1 p2 r1 r2 Hs1 Hs2 Hr1 Hr2.
  apply extract_row_date in Hr1 as (d1 & Hd1 & Hr1).
  apply extract_row_date in Hr2 as (d2 & Hd2 & Hr2).
  rewrite Hs1 in Hd1. injection Hd1 as <-.
  rewrite Hs2 in Hd2. injection Hd2 as <-.
  rewrite E1 in Hr1. rewrite E2 in Hr2.
  injection Hr1 as Hr1. injection Hr2 as Hr2.
  unfold date_key. rewrite <- Hr1, <- Hr2. repeat split.
Qed.

(** Near local midnight: 20:00 UTC on 15 January is 01:30 on 16 January
    in Asia/Kolkata, with or without the marker. *)
Lemma naive_and_utc_agree_witness :
  parse_date Sample.iso_lib (VStr "2024-01-15T20:00:00") =
    parse_date Sample.iso_lib (VStr "2024-01-15T20:00:00Z") /\
  parse_date Sample.iso_lib (VStr "2024-01-15T20:00:00") =
    Ok (Some (Ts 1705368600000000000 None)) /\
  calendar_date 1705368600000000000 = Sample.days_from_civil 2024 1 16.
Proof.
  destruct (naive_and_utc_agree Sample.iso_lib
              "2024-01-15T20:00:00" "2024-01-15T20:00:00Z" 1705348800000000000)
    as (Hsame & Hval & _);
    [discriminate | discriminate | reflexivity | reflexivity | reflexivity |].
  split; [exact Hsame|]. split; [exact Hval | reflexivity].
Defined.

(** ** C6: the fallback on a failed parse *)

(** C6, as stated, fails: when the full parse and the date-only parse
    both fail, the second failure is raised out of the handler; no record
    with a null date is built, the row itself fails. *)
Lemma both_parses_failing_fails_the_row :
  to_datetime_mixed Sample.iso_lib (VStr "unknown") = Raise DateParseError /\
  to_datetime Sample.iso_lib (VStr (before_T "unknown")) = Raise DateParseError /\
  parse_date Sample.iso_lib (VStr "unknown") = Raise DateParseError /\
  parse_date Sample.iso_lib (VStr "unknown") <> Ok None /\
  parse_date Sample.iso_lib (VStr "unknown") <> Ok (Some NaT) /\
  normalise_page Sample.iso_lib Rows.unknown_date = Raise DateParseError.
Proof.
  repeat split; try reflexivity; vm_compute; discriminate.
Qed.

(** C6, amended. When the full parse of a date string raises, the string
    is cut at its first ['T'] and the part before it is parsed as a date:
    what that second parse gives is the date of the record.  When the
    second parse raises too, its exception leaves the extraction: the row
    fails and no record is built for it. *)
Theorem failed_parse_falls_back (P : Lib) (s : string) (e : exn) :
  s <> "" ->
  to_datetime_mixed P (VStr s) = Raise e ->
  (forall t, to_datetime P (VStr (before_T s)) = Ok t ->
             parse_date P (VStr s) = Ok (Some t)) /\
  (forall e', to_datetime P (VStr (before_T s)) = Raise e' ->
              parse_date P (VStr s) = Raise e' /\
              forall properties,
                date_start properties = Ok (VStr s) ->
                exists e'', extract_row P properties = Raise e'').
Proof.
  intros Hs Hp.
  assert (Hd : parse_date P (VStr s) =
               (t <- to_datetime P (VStr (before_T s)) ;; Ok (Some t))).
  { unfold parse_date, parse_aware. rewrite (truthy_str _ Hs), Hp. reflexivity. }
  split.
  - intros t Ht. rewrite Hd, Ht. reflexivity.
  - intros e' He'.
    assert (Hr : parse_date P (VStr s) = Raise e') by (rewrite Hd, He'; reflexivity).
    split; [exact Hr|].
    intros properties Hstart. eapply extract_row_date_raises; eassumption.
Qed.

Lemma failed_parse_falls_back_witness :
  parse_date Sample.iso_lib (VStr "2024-01-15Tnoon") =
    Ok (Some (Ts (Sample.days_from_civil 2024 1 15 * ns_per_day) None)).
Proof.
  destruct (failed_parse_falls_back Sample.iso_lib "2024-01-15Tnoon" DateParseError)
    as [Hok _]; [discriminate | reflexivity |].
  apply Hok. reflexivity.
Defined.

(** ** C4: fields that are missing, fields that are malformed *)

(** C4, as stated, fails: a title fragment whose ["text"] is null makes
    the extraction of the name raise, and the row, whose other fields and
    date are sound, is lost. *)
Lemma malformed_field_raises_and_loses_the_row :
  (exists properties,
      getitem Rows.null_text "properties" = Ok properties /\
      first_content properties "Name" "title" = Raise AttributeError) /\
  normalise_page Sample.iso_lib Rows.null_text = Raise AttributeError /\
  ingest Sample.iso_lib [Rows.null_text] =
    Ok {| columns := schema; rows := [] |}.
Proof.
  split; [eexists; split; reflexivity|]. split; reflexivity.
Qed.

Lemma first_content_absent d F K :
  lookup F d = None -> first_content (VDict d) F K = Ok (VStr "").
Proof.
  intros H. unfold first_content. simpl. rewrite H. reflexivity.
Qed.

Lemma first_content_empty d F K prop :
  lookup F d = Some (VDict prop) ->
  match lookup K prop with Some t => truthy t = false | None => True end ->
  first_content (VDict d) F K = Ok (VStr "").
Proof.
  intros H HK. unfold first_content. simpl. rewrite H. simpl.
  destruct (lookup K prop) as [t|]; [rewrite HK|]; reflexivity.
Qed.

Lemma extract_amount_absent (P : Lib) d :
  lookup "Amount" d = None -> extract_amount P (VDict d) = Ok float_zero.
Proof.
  intros H. unfold extract_amount. simpl. rewrite H. reflexivity.
Qed.

Lemma extract_amount_number (P : Lib) d prop :
  lookup "Amount" d = Some (VDict prop) ->
  extract_amount P (VDict d) =
    py_float P (py_or (match lookup "number" prop with Some n => n | None => VInt 0 end)
                      (VInt 0)).
Proof.
  intros H. unfold extract_amount. simpl. rewrite H. reflexivity.
Qed.

(** C4, amended. A field among name, amount, category and comment that is
    missing degrades to its default without raising: a name or a comment
    whose property is absent, or whose list of fragments is absent, null
    or empty, is the empty string; an absent amount, or one whose number
    is absent or null, is 0.0; an absent or empty category property is the
    empty string.  A row in which the four properties are absent is kept,
    with these defaults, whenever its date is read. *)
Theorem missing_fields_take_defaults (P : Lib) (d : list (string * value)) :
  (forall F K, lookup F d = None -> first_content (VDict d) F K = Ok (VStr "")) /\
  (forall F K prop,
      lookup F d = Some (VDict prop) ->
      match lookup K prop with Some t => truthy t = false | None => True end ->
      first_content (VDict d) F K = Ok (VStr "")) /\
  (lookup "Amount" d = None -> extract_amount P (VDict d) = Ok float_zero) /\
  (forall prop,
      lookup "Amount" d = Some (VDict prop) ->
      lookup "number" prop = None \/ lookup "number" prop = Some VNone ->
      extract_amount P (VDict d) = Ok float_zero) /\
  (lookup "Category" d = None \/ lookup "Category" d = Some empty_dict ->
   (category_prop <- get (VDict d) "Category" empty_dict ;;
    extract_category category_prop) = Ok (VStr "")) /\
  (forall date_value parsed_date,
      lookup "Name" d = None -> lookup "Amount" d = None ->
      lookup "Category" d = None -> lookup "Comment" d = None ->
      date_start (VDict d) = Ok date_value ->
      parse_date P date_value = Ok parsed_date ->
      extract_row P (VDict d) =
        Ok {| Name := VStr ""; Amount := float_zero; Category := VStr "";
              Date := parsed_date; Comment := VStr "" |}).
Proof.
  split; [intros; now apply first_content_absent|].
  split; [intros F K prop H HK; now apply first_content_empty with prop|].
  split; [apply extract_amount_absent|].
  split.
  { intros prop H [Hn|Hn]; rewrite (extract_amount_number P _ _ H), Hn; reflexivity. }
  split.
  { intros [H|H]; simpl; rewrite H; reflexivity. }
  intros dv pd Hname Hamount Hcat Hcomment Hstart Hparse.
  assert (Hc : get (VDict d) "Category" empty_dict = Ok empty_dict)
    by (simpl; rewrite Hcat; reflexivity).
  unfold extract_row. rewrite Hstart. cbn [bind].
  rewrite Hc. cbn [bind].
  change (extract_category empty_dict) with (Ok (A := value) (VStr "")). cbn [bind].
  rewrite Hparse. cbn [bind].
  rewrite (first_content_absent _ _ _ Hname). cbn [bind].
  rewrite (extract_amount_absent P _ Hamount). cbn [bind].
  rewrite (first_content_absent _ _ _ Hcomment). reflexivity.
Qed.

Lemma missing_fields_take_defaults_witness :
  extract_row Sample.iso_lib (VDict [("Date", Sample.date_prop "2024-01-15")]) =
    Ok {| Name := VStr ""; Amount := float_zero; Category := VStr "";
          Date := Some (Ts (Sample.days_from_civil 2024 1 15 * ns_per_day + IST_offset) None);
          Comment := VStr "" |}.
Proof.
  destruct (missing_fields_take_defaults Sample.iso_lib
              [("Date", Sample.date_prop "2024-01-15")])
    as (_ & _ & _ & _ & _ & Hrow).
  apply (Hrow (VStr "2024-01-15")); reflexivity.
Defined.

(** ** C10: the amount *)




(** ** C5: one failing row *)

Section OneFailure.

Context (P : Lib).

Lemma survivors_app l1 l2 : survivors P (l1 ++ l2) = survivors P l1 ++ survivors P l2.
Proof. apply flat_map_app. Qed.

Lemma survivor_raise page e : normalise_page P page = Raise e -> survivor P page = [].
Proof. unfold survivor. now intros ->. Qed.




Lemma filter_split_length {A} (f : A -> bool) (l : list A) :
  (List.length (filter f l) + List.length (filter (fun x => negb (f x)) l) = List.length l)%nat.
Proof.
  induction l as [|x l IH]; [reflexivity|].
  simpl. destruct (f x); simpl; lia.
Qed.

End OneFailure.




(** ** C7: pagination *)

Lemma iterate_len r items : iterate r = Ok items -> exists n, len r = Ok n.
Proof.
  destruct r; simpl; try discriminate; intros _; eexists; reflexivity.
Qed.

Lemma next_query_served src q next query r items :
  getitem q "next_cursor" = Ok next ->
  src (Some next) = Ok query ->
  getitem query "results" = Ok r ->
  iterate r = Ok items ->
  next_query src q = Ok (query, items).
Proof.
  intros Hc Hq Hr Hi. unfold next_query.
  rewrite Hc; simpl. rewrite Hq; simpl. rewrite Hr; simpl. rewrite Hi; simpl.
  destruct (iterate_len _ _ Hi) as [n ->]. reflexivity.
Qed.

(** The [while] loop, entered after a query that announced more pages. *)
Lemma more_pages_serves src cursor pages :
  serves src cursor pages ->
  forall fuel q acc has_more next,
    cursor = Some next ->
    get q "has_more" (VBool false) = Ok has_more ->
    truthy has_more = true ->
    getitem q "next_cursor" = Ok next ->
    (List.length pages <= fuel)%nat ->
    more_pages src fuel q acc = Returns (acc ++ List.concat pages).
Proof.
  induction 1 as [cursor query r items hm Hq Hr Hi Hhm Hf
                 |cursor query r items hm nxt rest Hq Hr Hi Hhm Ht Hn Hrest IH];
    intros fuel q acc h next -> Hh Hth Hnext Hfuel;
    (destruct fuel as [|fuel]; [simpl in Hfuel; lia|]);
    simpl; rewrite Hh, Hth, (next_query_served _ _ _ _ _ _ Hnext Hq Hr Hi).
  - destruct fuel; simpl; rewrite Hhm, Hf, app_nil_r; reflexivity.
  - rewrite (IH fuel query (acc ++ items) hm nxt eq_refl Hhm Ht Hn)
      by (simpl in Hfuel; lia).
    now rewrite <- app_assoc.
Qed.

Lemma first_query_served src query r items rest :
  src None = Ok query ->
  getitem query "results" = Ok r ->
  iterate r = Ok items ->
  first_bound (items ++ rest) = true ->
  first_query src = Ok (query, items).
Proof.
  intros Hq Hr Hi Hb. unfold first_query.
  rewrite Hq; simpl. rewrite Hr; simpl.
  destruct (iterate_len _ _ Hi) as [n ->]; simpl.
  assert (Hfirst : (if truthy r
                    then first <- getitem0 r ;; getitem first "properties"
                    else Ok VNone) <> Raise TypeError /\
                   exists v, (if truthy r
                    then first <- getitem0 r ;; getitem first "properties"
                    else Ok VNone) = Ok v).
  { destruct r as [| | | |s|l|d]; simpl in Hi; try discriminate;
      injection Hi as <-.
    - destruct s as [|c s]; simpl; [split; [discriminate | eexists; reflexivity]|].
      simpl in Hb. discriminate.
    - destruct l as [|x l]; simpl; [split; [discriminate | eexists; reflexivity]|].
      simpl in Hb. unfold has_properties in Hb.
      destruct (getitem x "properties") as [v|]; [|discriminate].
      split; [discriminate | eexists; reflexivity].
    - destruct d as [|[k v] d]; simpl; [split; [discriminate | eexists; reflexivity]|].
      simpl in Hb. discriminate. }
  destruct Hfirst as [_ [v ->]]. simpl. rewrite Hi. reflexivity.
Qed.

Lemma fetch_serves src pages fuel :
  serves src None pages ->
  first_bound (List.concat pages) = true ->
  (List.length pages <= S fuel)%nat ->
  fetch src fuel = Returns (List.concat pages).
Proof.
  intros Hs Hb Hfuel. unfold fetch.
  inversion Hs as [cursor query r items hm Hq Hr Hi Hhm Hf
                  |cursor query r items hm nxt rest Hq Hr Hi Hhm Ht Hn Hrest]; subst.
  - simpl in Hb. rewrite (first_query_served _ _ _ _ _ Hq Hr Hi Hb).
    destruct fuel; simpl; rewrite Hhm, Hf, app_nil_r; reflexivity.
  - simpl in Hb. rewrite (first_query_served _ _ _ _ _ Hq Hr Hi Hb).
    apply (more_pages_serves _ _ _ Hrest fuel query items hm nxt eq_refl Hhm Ht Hn).
    simpl in Hfuel. lia.
Qed.

Lemma concat_length (pages : list (list value)) :
  List.length (List.concat pages) = total_rows pages.
Proof.
  unfold total_rows. induction pages as [|p pages IH]; simpl; [reflexivity|].
  now rewrite length_app, IH.
Qed.

Lemma survivors_length (P : Lib) results :
  (List.length (survivors P results) + failures P results = List.length results)%nat.
Proof.
  unfold failures, survivors.
  induction results as [|p l IH]; simpl; [reflexivity|].
  rewrite length_app. unfold survivor at 1, fails at 1.
  destruct (normalise_page P p); simpl; lia.
Qed.

(** C7, as stated, fails: a single page with a single row that has no
    date.  Nothing fails in extraction, yet the table has no row, while
    the pages hold one. *)
Lemma undated_row_is_not_counted :
  serves (Sample.paged_source [[Rows.blank]]) None [[Rows.blank]] /\
  failures Sample.iso_lib (List.concat [[Rows.blank]]) = 0%nat /\
  exists df,
    load_data_from_notion Sample.iso_lib (Sample.paged_source [[Rows.blank]]) 0 = Returns df /\
    List.length (rows df) = 0%nat /\
    List.length (rows df) <>
      (total_rows [[Rows.blank]] - failures Sample.iso_lib (List.concat [[Rows.blank]]))%nat.
Proof.
  split; [eapply serves_last; reflexivity|]. split; [reflexivity|].
  eexists. split; [vm_compute; reflexivity|]. split; [reflexivity | discriminate].
Qed.

(** C7, amended. From a source that serves N pages, each but the last
    announcing more, and whose first row, if any, has its ["properties"],
    the fetch asks for all N pages (N - 1 turns of the loop suffice) and
    gathers their rows in order.  The table then counts the rows of all
    pages, less the rows whose extraction failed, less the rows that went
    through without a date. *)
Theorem pagination_row_count (P : Lib) (src : Source) (pages : list (list value)) (fuel : nat) :
  serves src None pages ->
  first_bound (List.concat pages) = true ->
  (List.length pages <= S fuel)%nat ->
  fetch src fuel = Returns (List.concat pages) /\
  (comparable (filter notna (survivors P (List.concat pages))) = true ->
   exists df, load_data_from_notion P src fuel = Returns df) /\
  (forall df,
      load_data_from_notion P src fuel = Returns df ->
      (List.length (rows df) + failures P (List.concat pages) + undated P (List.concat pages)
       = total_rows pages)%nat).
Proof.
  intros Hs Hb Hfuel.
  pose proof (fetch_serves _ _ _ Hs Hb Hfuel) as Hfetch.
  assert (Hload : load_data_from_notion P src fuel =
                  match table_of (survivors P (List.concat pages)) with
                  | Ok df => Returns df
                  | Raise e => Raises e
                  end).
  { unfold load_data_from_notion. rewrite Hfetch, (ingest_first_bound P _ Hb). reflexivity. }
  split; [exact Hfetch|]. split.
  - intros Hc. rewrite Hload, (table_of_comparable _ Hc). eexists; reflexivity.
  - intros df Hdf. rewrite Hload in Hdf.
    destruct (table_of (survivors P (List.concat pages))) as [df'|] eqn:E; [|discriminate].
    injection Hdf as ->. apply table_of_rows in E as [_ ->].
    rewrite sort_rows_length, <- concat_length. unfold undated.
    pose proof (filter_split_length notna (survivors P (List.concat pages))).
    pose proof (survivors_length P (List.concat pages)). lia.
Qed.

Lemma pagination_row_count_witness :
  fetch (Sample.paged_source Rows.january) 1 = Returns (List.concat Rows.january) /\
  exists df,
    load_data_from_notion Sample.iso_lib (Sample.paged_source Rows.january) 1 = Returns df.
Proof.
  destruct (pagination_row_count Sample.iso_lib
              (Sample.paged_source Rows.january) Rows.january 1)
    as (Hfetch & Hreturns & _).
  - eapply serves_more; [reflexivity .. |].
    eapply serves_last; reflexivity.
  - reflexivity.
  - simpl. lia.
  - split; [exact Hfetch | apply Hreturns; reflexivity].
Defined.

(** ** Concrete runs *)

(** Two pages, three rows: the table comes out sorted by local date and
    time, the December row first. *)
Example january_table :
  exists r1 r2 r3,
    load_data_from_notion Sample.iso_lib (Sample.paged_source Rows.january) 1 =
      Returns {| columns := schema; rows := [r1; r2; r3] |} /\
    (Name r1, Date r1) = (VStr "Rent", Some (Ts 1704069000000000000 None)) /\
    (Name r2, Date r2) = (VStr "Bus", Some (Ts 1705210200000000000 None)) /\
    (Name r3, Date r3) = (VStr "Lunch", Some (Ts 1705368600000000000 None)).
Proof.
  do 3 eexists. split; [vm_compute; reflexivity|]. repeat split.
Qed.

(** The row handler formats [properties] into its log line, and line 44
    reads the ["properties"] of the very first row: a first row without
    ["properties"] is not skipped, it ends the ingestion. *)
Example first_row_without_properties_aborts :
  ingest Sample.iso_lib [VDict []; Rows.morning] = Raise UnboundLocalError /\
  load_data_from_notion Sample.iso_lib
    (Sample.paged_source [[VDict []; Rows.morning]]) 0 = Raises KeyError /\
  load_data_from_notion Sample.iso_lib
    (Sample.paged_source [[]; [VDict []; Rows.morning]]) 1 = Raises UnboundLocalError /\
  ingest Sample.iso_lib [Rows.morning; VDict []] =
    ingest Sample.iso_lib [Rows.morning].
Proof.
  repeat split.
Qed.

(** * Further properties of the ingestion *)

(** ** What a returned table holds *)

Lemma survivors_in (P : Lib) results r :
  In r (survivors P results) ->
  exists page, In page results /\ normalise_page P page = Ok r.
Proof.
  unfold survivors. intros H. apply in_flat_map in H as (page & Hin & Hr).
  exists page. split; [exact Hin|].
  unfold survivor in Hr. destruct (normalise_page P page) as [row|]; [|contradiction].
  destruct Hr as [->|[]]. reflexivity.
Qed.

(** X1. Every table that the ingestion returns has the five columns of the
    schema, and its rows are, up to order, exactly the records with a
    date among those the fetched raw rows gave: each row of the table is
    the extraction of a fetched row, none is lost and none is repeated. *)
Theorem returned_table_holds_the_dated_survivors (P : Lib) (src : Source) (fuel : nat)
    (df : DataFrame) :
  load_data_from_notion P src fuel = Returns df ->
  columns df = ["Name"; "Amount"; "Category"; "Date"; "Comment"] /\
  exists results,
    fetch src fuel = Returns results /\
    Permutation (rows df) (filter notna (survivors P results)) /\
    forall r, In r (rows df) ->
      exists page, In page results /\ normalise_page P page = Ok r.
Proof.
  intros H. apply load_data_inv in H as (results & Hfetch & Hing).
  apply ingest_rows in Hing as [Hcols Hrows]. split; [exact Hcols|].
  exists results. split; [exact Hfetch|]. rewrite Hrows. split.
  - apply sort_rows_perm.
  - intros r Hr. apply survivors_in.
    eapply Permutation_in in Hr; [|apply sort_rows_perm].
    apply filter_In in Hr. tauto.
Qed.

Lemma returned_table_holds_the_dated_survivors_witness :
  exists df,
    load_data_from_notion Sample.iso_lib (Sample.paged_source Rows.january) 1 = Returns df /\
    columns df = ["Name"; "Amount"; "Category"; "Date"; "Comment"] /\
    List.length (rows df) = 3%nat.
Proof.
  eexists. split; [vm_compute; reflexivity|].
  destruct (returned_table_holds_the_dated_survivors Sample.iso_lib
              (Sample.paged_source Rows.january) 1 _ eq_refl) as [Hcols _].
  split; [exact Hcols | reflexivity].
Defined.

(** ** The loop, whatever the number of failing rows *)

(** X2. When the row loop ends, [processed_data] holds one record for
    each raw row whose extraction did not raise, in the order of the raw
    rows; the rows left out are exactly the failing ones. *)
Theorem loop_keeps_rows_in_raw_order (P : Lib) (results : list value) (processed : list Row) :
  process_rows P results false [] = Ok processed ->
  processed = survivors P results /\
  (List.length processed + failures P results = List.length results)%nat.
Proof.
  intros H. apply process_rows_inv in H. subst processed.
  split; [reflexivity | apply survivors_length].
Qed.

Lemma loop_keeps_rows_in_raw_order_witness :
  exists r1 r2,
    process_rows Sample.iso_lib [Rows.morning; Rows.null_text; Rows.unknown_date; Rows.refund]
      false [] = Ok [r1; r2] /\
    Name r1 = VStr "Tea" /\ Name r2 = VStr "Refund" /\
    failures Sample.iso_lib [Rows.morning; Rows.null_text; Rows.unknown_date; Rows.refund] = 2%nat.
Proof.
  do 2 eexists. split; [vm_compute; reflexivity|].
  destruct (loop_keeps_rows_in_raw_order Sample.iso_lib
              [Rows.morning; Rows.null_text; Rows.unknown_date; Rows.refund] _ eq_refl)
    as [_ Hlen].
  split; [reflexivity|]. split; [reflexivity|].
  simpl List.length in Hlen. lia.
Defined.

(** X3. A first row whose ["properties"] cannot be read is not skipped:
    it ends the ingestion with an exception.  On a first page that has
    rows, the eager read of line 44 raises what the read raises; in the
    row loop, the handler raises [UnboundLocalError] at its log line. *)
Theorem first_row_needs_properties (P : Lib) :
  (forall src fuel query page rows e,
      src None = Ok query ->
      getitem query "results" = Ok (VList (page :: rows)) ->
      getitem page "properties" = Raise e ->
      load_data_from_notion P src fuel = Raises e) /\
  (forall page rest,
      has_properties page = false ->
      ingest P (page :: rest) = Raise UnboundLocalError) /\
  (forall src fuel df results,
      load_data_from_notion P src fuel = Returns df ->
      fetch src fuel = Returns results ->
      first_bound results = true).
Proof.
  split; [|split].
  - intros src fuel query page rows e Hq Hr Hp.
    unfold load_data_from_notion, fetch, first_query.
    rewrite Hq; simpl. rewrite Hr; simpl. rewrite Hp. reflexivity.
  - intros page rest H. unfold ingest.
    rewrite (process_rows_unbound P _ _ _ H). reflexivity.
  - intros src fuel df results Hload Hfetch.
    apply load_data_inv in Hload as (results' & Hfetch' & Hing).
    rewrite Hfetch in Hfetch'. injection Hfetch' as <-.
    destruct results as [|page rest]; [reflexivity|].
    simpl. destruct (has_properties page) eqn:E; [reflexivity|].
    unfold ingest in Hing. rewrite (process_rows_unbound P _ _ _ E) in Hing.
    discriminate.
Qed.

Lemma first_row_needs_properties_witness :
  load_data_from_notion Sample.iso_lib
    (Sample.paged_source [[VStr "stray"; Rows.morning]]) 0 = Raises TypeError /\
  ingest Sample.iso_lib [VStr "stray"; Rows.morning] = Raise UnboundLocalError.
Proof.
  destruct (first_row_needs_properties Sample.iso_lib) as (Heager & Hloop & _).
  split.
  - eapply Heager; reflexivity.
  - apply Hloop. reflexivity.
Defined.

(** X4. A row whose extraction raises can be taken out of the batch
    without changing what the ingestion gives, as long as the first row
    of the batch, before and after, has its ["properties"]. *)
Theorem failing_row_can_be_removed (P : Lib) (pre post : list value) (bad : value) (e : exn) :
  normalise_page P bad = Raise e ->
  first_bound (pre ++ bad :: post) = true ->
  first_bound (pre ++ post) = true ->
  ingest P (pre ++ bad :: post) = ingest P (pre ++ post).
Proof.
  intros Hbad H1 H2.
  rewrite (ingest_first_bound P _ H1), (ingest_first_bound P _ H2).
  rewrite !survivors_app. unfold survivors at 2. simpl.
  rewrite (survivor_raise P _ _ Hbad). reflexivity.
Qed.

Lemma failing_row_can_be_removed_witness :
  ingest Sample.iso_lib ([Rows.morning; Rows.null_text] ++ Rows.unknown_date :: [Rows.refund]) =
  ingest Sample.iso_lib ([Rows.morning; Rows.null_text] ++ [Rows.refund]).
Proof.
  apply (failing_row_can_be_removed Sample.iso_lib _ _ _ DateParseError); reflexivity.
Defined.

(** X6. How the rows are cut into pages does not matter: two sources
    that serve the same rows in the same order, in however many pages
    each, give the same outcome, provided the first of these rows, if
    any, has its ["properties"]. *)
Theorem paging_does_not_matter (P : Lib) (src1 src2 : Source)
    (pages1 pages2 : list (list value)) (fuel1 fuel2 : nat) :
  serves src1 None pages1 ->
  serves src2 None pages2 ->
  List.concat pages1 = List.concat pages2 ->
  first_bound (List.concat pages1) = true ->
  (List.length pages1 <= S fuel1)%nat ->
  (List.length pages2 <= S fuel2)%nat ->
  load_data_from_notion P src1 fuel1 = load_data_from_notion P src2 fuel2.
Proof.
  intros Hs1 Hs2 Heq Hb Hf1 Hf2.
  unfold load_data_from_notion.
  rewrite (fetch_serves _ _ _ Hs1 Hb Hf1).
  rewrite Heq in Hb. rewrite (fetch_serves _ _ _ Hs2 Hb Hf2), Heq. reflexivity.
Qed.

Lemma paging_does_not_matter_witness :
  load_data_from_notion Sample.iso_lib (Sample.paged_source Rows.january) 1 =
  load_data_from_notion Sample.iso_lib Sources.one_page 0.
Proof.
  apply (paging_does_not_matter Sample.iso_lib _ _ Rows.january [List.concat Rows.january]).
  - eapply serves_more; [reflexivity .. |]. eapply serves_last; reflexivity.
  - eapply serves_last; reflexivity.
  - reflexivity.
  - reflexivity.
  - simpl. lia.
  - simpl. lia.
Defined.

(** ** Failures while paging *)

Lemma more_pages_breaks src e cursor pages :
  breaks src e cursor pages ->
  forall fuel q acc has_more next,
    cursor = Some next ->
    get q "has_more" (VBool false) = Ok has_more ->
    truthy has_more = true ->
    getitem q "next_cursor" = Ok next ->
    (S (List.length pages) <= fuel)%nat ->
    more_pages src fuel q acc = Raises e.
Proof.
  induction 1 as [cursor Hq
                 |cursor query Hq Hr
                 |cursor query r items hm Hq Hr Hi Hhm Ht Hn
                 |cursor query r items hm nxt rest Hq Hr Hi Hhm Ht Hn Hrest IH];
    intros fuel q acc h next -> Hh Hth Hnext Hfuel;
    (destruct fuel as [|fuel]; [simpl in Hfuel; lia|]);
    simpl; rewrite Hh, Hth.
  - unfold next_query. rewrite Hnext; simpl. rewrite Hq. reflexivity.
  - unfold next_query. rewrite Hnext; simpl. rewrite Hq; simpl. rewrite Hr. reflexivity.
  - rewrite (next_query_served _ _ _ _ _ _ Hnext Hq Hr Hi).
    destruct fuel as [|fuel]; [simpl in Hfuel; lia|].
    simpl. rewrite Hhm, Ht. unfold next_query. rewrite Hn. reflexivity.
  - rewrite (next_query_served _ _ _ _ _ _ Hnext Hq Hr Hi).
    apply (IH fuel query (acc ++ items) hm nxt eq_refl Hhm Ht Hn).
    simpl in Hfuel. lia.
Qed.

Lemma first_query_inv src query r items x :
  src None = Ok query ->
  getitem query "results" = Ok r ->
  iterate r = Ok items ->
  first_query src = Ok x ->
  x = (query, items).
Proof.
  intros Hq Hr Hi. unfold first_query.
  rewrite Hq; simpl. rewrite Hr; simpl.
  destruct (len r); [|discriminate]. simpl.
  destruct (if truthy r then first <- getitem0 r;; getitem first "properties" else Ok VNone);
    [|discriminate].
  simpl. rewrite Hi. simpl. congruence.
Qed.

(** X7. A failure while paging is fatal and leaves nothing: when, after
    any number of pages, a query raises, or an answer lacks
    ["results"], or a page announces more without a ["next_cursor"],
    the ingestion raises and the rows of the pages already fetched are
    given up.  The exception is that of the failure whenever the first
    fetched row, if any, has its ["properties"]. *)
Theorem paging_failure_is_fatal (P : Lib) (src : Source) (e : exn)
    (pages : list (list value)) (fuel : nat) :
  breaks src e None pages ->
  (List.length pages <= fuel)%nat ->
  (exists e', load_data_from_notion P src fuel = Raises e') /\
  (first_bound (List.concat pages) = true ->
   load_data_from_notion P src fuel = Raises e).
Proof.
  intros Hb Hfuel. unfold load_data_from_notion, fetch.
  inversion Hb as [cursor Hq
                  |cursor query Hq Hr
                  |cursor query r items hm Hq Hr Hi Hhm Ht Hn
                  |cursor query r items hm nxt rest Hq Hr Hi Hhm Ht Hn Hrest]; subst.
  - unfold first_query. rewrite Hq. split; [now exists e | reflexivity].
  - unfold first_query. rewrite Hq; simpl. rewrite Hr. split; [now exists e | reflexivity].
  - assert (Hloop : more_pages src fuel query items = Raises e).
    { destruct fuel as [|fuel]; [simpl in Hfuel; lia|].
      simpl. rewrite Hhm, Ht. unfold next_query. rewrite Hn. reflexivity. }
    split.
    + destruct (first_query src) as [x|e'] eqn:E; [|now exists e'].
      rewrite (first_query_inv _ _ _ _ _ Hq Hr Hi E), Hloop. now exists e.
    + intros Hfb. simpl in Hfb.
      rewrite (first_query_served _ _ _ _ _ Hq Hr Hi Hfb), Hloop. reflexivity.
  - assert (Hloop : more_pages src fuel query items = Raises e).
    { apply (more_pages_breaks _ _ _ _ Hrest fuel query items hm nxt eq_refl Hhm Ht Hn).
      simpl in Hfuel. lia. }
    split.
    + destruct (first_query src) as [x|e'] eqn:E; [|now exists e'].
      rewrite (first_query_inv _ _ _ _ _ Hq Hr Hi E), Hloop. now exists e.
    + intros Hfb. simpl in Hfb.
      rewrite (first_query_served _ _ _ _ _ Hq Hr Hi Hfb), Hloop. reflexivity.
Qed.

Lemma paging_failure_is_fatal_witness :
  load_data_from_notion Sample.iso_lib Sources.flaky 1 = Raises APIResponseError.
Proof.
  apply (paging_failure_is_fatal Sample.iso_lib Sources.flaky APIResponseError
           [[Rows.morning]] 1).
  - eapply breaks_later; [reflexivity .. |]. apply breaks_query. reflexivity.
  - simpl. lia.
  - reflexivity.
Defined.

Lemma more_pages_endless src :
  endless src ->
  forall fuel q acc has_more next,
    get q "has_more" (VBool false) = Ok has_more ->
    truthy has_more = true ->
    getitem q "next_cursor" = Ok next ->
    more_pages src fuel q acc = OutOfFuel.
Proof.
  intros Hend. induction fuel as [|fuel IH]; intros q acc h next Hh Ht Hn;
    simpl; rewrite Hh, Ht; [reflexivity|].
  destruct (Hend (Some next)) as (q' & r & items & h' & next' & Hq & Hr & Hi & Hh' & Ht' & Hn').
  rewrite (next_query_served _ _ _ _ _ _ Hn Hq Hr Hi).
  now apply IH with h' next'.
Qed.

(** X8. The loop over the pages has no bound of its own: from a source
    that announces a next page on every answer, the ingestion never
    returns a table, however many turns it is given; and when the first
    row of the first page, if any, has its ["properties"], it does not
    raise either: it just goes on asking for pages. *)
Theorem endless_source_never_returns (P : Lib) (src : Source) :
  endless src ->
  (forall fuel df, load_data_from_notion P src fuel <> Returns df) /\
  (forall first_page,
      (forall query r, src None = Ok query -> getitem query "results" = Ok r ->
                       iterate r = Ok first_page) ->
      first_bound first_page = true ->
      forall fuel, load_data_from_notion P src fuel = OutOfFuel).
Proof.
  intros Hend.
  destruct (Hend None) as (q & r & items & h & next & Hq & Hr & Hi & Hh & Ht & Hn).
  split.
  - intros fuel df. unfold load_data_from_notion, fetch.
    destruct (first_query src) as [x|e'] eqn:E; [|discriminate].
    rewrite (first_query_inv _ _ _ _ _ Hq Hr Hi E).
    rewrite (more_pages_endless _ Hend fuel q items h next Hh Ht Hn). discriminate.
  - intros first_page Hfirst Hfb fuel.
    pose proof (Hfirst q r Hq Hr) as Hi'.
    rewrite Hi in Hi'. injection Hi' as ->.
    unfold load_data_from_notion, fetch.
    rewrite <- (app_nil_r first_page) in Hfb.
    rewrite (first_query_served _ _ _ _ _ Hq Hr Hi Hfb).
    now rewrite (more_pages_endless _ Hend fuel q first_page h next Hh Ht Hn).
Qed.

Lemma endless_looping : endless Sources.looping.
Proof.
  intros cursor. do 5 eexists. repeat split; reflexivity.
Qed.

Lemma endless_source_never_returns_witness :
  load_data_from_notion Sample.iso_lib Sources.looping 1000 = OutOfFuel.
Proof.
  destruct (endless_source_never_returns Sample.iso_lib Sources.looping endless_looping)
    as [_ Hloop].
  apply (Hloop []).
  - intros query r Hq Hr. injection Hq as <-. injection Hr as <-. reflexivity.
  - reflexivity.
Defined.

(** ** More on the fields *)

(** X9. Every falsy number (null, 0, 0.0, -0.0, false, an empty string,
    list or object) gives the amount +0.0, while a number that is a
    non-empty list or object makes the extraction of the amount, and
    with it that of the row, raise. *)
Theorem amount_of_falsy_and_of_containers (P : Lib) (d prop : list (string * value))
    (number : value) :
  lookup "Amount" d = Some (VDict prop) ->
  lookup "number" prop = Some number ->
  (truthy number = false -> extract_amount P (VDict d) = Ok (S754_zero false)) /\
  ((exists x l, number = VList (x :: l)) \/ (exists kv o, number = VDict (kv :: o)) ->
   extract_amount P (VDict d) = Raise TypeError /\
   exists e, extract_row P (VDict d) = Raise e).
Proof.
  intros Ha Hn. rewrite (extract_amount_number P _ _ Ha), Hn. split.
  - intros Hf. unfold py_or. rewrite Hf. reflexivity.
  - intros Hc.
    assert (Hraise : py_float P (py_or number (VInt 0)) = Raise TypeError)
      by (destruct Hc as [(x & l & ->)|(kv & o & ->)]; reflexivity).
    split; [exact Hraise|].
    unfold extract_row.
    destruct (date_start (VDict d)) as [dv|e1]; [|now exists e1]. cbn [bind].
    destruct (get (VDict d) "Category" empty_dict) as [cp|e2]; [|now exists e2]. cbn [bind].
    destruct (extract_category cp) as [cv|e3]; [|now exists e3]. cbn [bind].
    destruct (parse_date P dv) as [pd|e4]; [|now exists e4]. cbn [bind].
    destruct (first_content (VDict d) "Name" "title") as [nm|e5]; [|now exists e5]. cbn [bind].
    rewrite (extract_amount_number P _ _ Ha), Hn, Hraise. now exists TypeError.
Qed.

Lemma amount_of_falsy_and_of_containers_witness :
  extract_amount Sample.iso_lib
    (VDict [("Amount", Sample.number_prop (VFloat (S754_zero true)))]) = Ok (S754_zero false) /\
  extract_amount Sample.iso_lib
    (VDict [("Amount", Sample.number_prop (VList [VInt 5]))]) = Raise TypeError.
Proof.
  split.
  - apply (amount_of_falsy_and_of_containers Sample.iso_lib
             [("Amount", Sample.number_prop (VFloat (S754_zero true)))]
             [("number", VFloat (S754_zero true))] (VFloat (S754_zero true)));
      reflexivity.
  - apply (amount_of_falsy_and_of_containers Sample.iso_lib
             [("Amount", Sample.number_prop (VList [VInt 5]))]
             [("number", VList [VInt 5])] (VList [VInt 5]));
      [reflexivity | reflexivity |].
    left. now exists (VInt 5), [].
Defined.

(** X10. Of a title or a rich text only the first fragment counts: its
    text content is the name (or comment) whatever fragments follow, and
    a first fragment without a ["text"] gives the empty string even when
    later fragments carry text. *)
Theorem only_the_first_fragment_counts (d prop fragment : list (string * value))
    (rest : list value) (F K : string) :
  lookup F d = Some (VDict prop) ->
  lookup K prop = Some (VList (VDict fragment :: rest)) ->
  (forall text c,
      lookup "text" fragment = Some (VDict text) ->
      lookup "content" text = Some c ->
      first_content (VDict d) F K = Ok c) /\
  (lookup "text" fragment = None ->
   first_content (VDict d) F K = Ok (VStr "")).
Proof.
  intros HF HK. unfold first_content. simpl. rewrite HF. simpl. rewrite HK. simpl.
  split.
  - intros text c Ht Hc. rewrite Ht. simpl. now rewrite Hc.
  - intros Ht. now rewrite Ht.
Qed.

Lemma only_the_first_fragment_counts_witness :
  first_content
    (VDict [("Name", VDict [("title",
       VList [VDict [("mention", VStr "@ann")];
              VDict [("text", VDict [("content", VStr "lunch")])]])])])
    "Name" "title" = Ok (VStr "").
Proof.
  eapply only_the_first_fragment_counts; reflexivity.
Defined.

(** X11. A row whose date property holds a null ["date"] (an empty date
    cell) fails in extraction with [AttributeError], whatever its other
    fields; a row whose date property is absent altogether does not fail
    for it and is extracted with the date [None]. *)
Theorem null_date_fails_absent_date_passes (P : Lib) (d : list (string * value)) :
  (forall date_prop,
      lookup "Date" d = Some (VDict date_prop) ->
      lookup "date" date_prop = Some VNone ->
      extract_row P (VDict d) = Raise AttributeError) /\
  (lookup "Date" d = None ->
   date_start (VDict d) = Ok VNone /\
   forall row, extract_row P (VDict d) = Ok row -> Date row = None /\ notna row = false).
Proof.
  split.
  - intros dp Hd Hn. unfold extract_row, date_start. simpl. rewrite Hd. simpl.
    rewrite Hn. reflexivity.
  - intros Hd.
    assert (Hs : date_start (VDict d) = Ok VNone)
      by (unfold date_start; simpl; rewrite Hd; reflexivity).
    split; [exact Hs|].
    intros row Hrow. apply extract_row_date in Hrow as (dv & Hdv & Hp).
    rewrite Hs in Hdv. injection Hdv as <-. simpl in Hp. injection Hp as Hp.
    unfold notna. rewrite <- Hp. split; reflexivity.
Qed.

Lemma null_date_fails_absent_date_passes_witness :
  extract_row Sample.iso_lib
    (VDict [("Name", Sample.title_prop "Tea"); ("Date", VDict [("date", VNone)])]) =
    Raise AttributeError.
Proof.
  destruct (null_date_fails_absent_date_passes Sample.iso_lib
              [("Name", Sample.title_prop "Tea"); ("Date", VDict [("date", VNone)])])
    as [Hnull _].
  apply (Hnull [("date", VNone)]); reflexivity.
Defined.

(** ** The local day *)

Lemma shifted_day ns :
  calendar_date (ns + IST_offset) =
    calendar_date ns + (if time_of_day ns <? ns_per_day - IST_offset then 0 else 1) /\
  time_of_day (ns + IST_offset) =
    if time_of_day ns <? ns_per_day - IST_offset
    then time_of_day ns + IST_offset
    else time_of_day ns + IST_offset - ns_per_day.
Proof.
  unfold calendar_date, time_of_day.
  assert (Hd : 0 < ns_per_day) by reflexivity.
  assert (Ho : 0 <= IST_offset < ns_per_day) by (split; [discriminate | reflexivity]).
  pose proof (Z.div_mod ns ns_per_day ltac:(lia)) as Hdm.
  pose proof (Z.mod_pos_bound ns ns_per_day Hd) as Hb.
  set (q := ns / ns_per_day) in *. set (t := ns mod ns_per_day) in *.
  destruct (Z.ltb_spec t (ns_per_day - IST_offset)).
  - assert (E : ns + IST_offset = ns_per_day * q + (t + IST_offset)) by lia.
    split.
    + rewrite Z.add_0_r. symmetry. apply (Z.div_unique_pos _ _ q (t + IST_offset)); lia.
    + symmetry. apply (Z.mod_unique_pos _ _ q (t + IST_offset)); lia.
  - assert (E : ns + IST_offset = ns_per_day * (q + 1) + (t + IST_offset - ns_per_day)) by lia.
    split.
    + symmetry. apply (Z.div_unique_pos _ _ (q + 1) (t + IST_offset - ns_per_day)); lia.
    + symmetry. apply (Z.mod_unique_pos _ _ (q + 1) (t + IST_offset - ns_per_day)); lia.
Qed.

(** X12. The day of a record is the UTC day of its instant when the UTC
    time is before 18:30, and the next day from 18:30 on; its time of day
    is the UTC time moved by 5:30 around the clock.  In particular a
    date given without a time gets the time 05:30 of the same day. *)
Theorem evening_instants_land_on_the_next_day (P : Lib) (s : string) (ns : Z)
    (tz : option tzinfo) :
  s <> "" ->
  to_datetime_mixed P (VStr s) = Ok (Ts ns tz) ->
  kolkata_utcoffset P ns = IST_offset ->
  in_bounds (ns + IST_offset) = true ->
  exists local,
    parse_date P (VStr s) = Ok (Some (Ts local None)) /\
    calendar_date local =
      calendar_date ns + (if time_of_day ns <? (18 * 3600 + 1800) * ns_per_second then 0 else 1) /\
    time_of_day local =
      (if time_of_day ns <? (18 * 3600 + 1800) * ns_per_second
       then time_of_day ns + IST_offset
       else time_of_day ns + IST_offset - ns_per_day) /\
    (time_of_day ns = 0 ->
     calendar_date local = calendar_date ns /\
     time_of_day local = (5 * 3600 + 1800) * ns_per_second).
Proof.
  intros Hs Hp Hoff Hb. exists (ns + IST_offset).
  split.
  { rewrite <- Hoff in *. now apply parse_date_parsed with tz. }
  destruct (shifted_day ns) as [Hday Htime].
  change (ns_per_day - IST_offset) with ((18 * 3600 + 1800) * ns_per_second) in Hday, Htime.
  split; [exact Hday|]. split; [exact Htime|].
  intros H0. rewrite Hday, Htime, H0. split; [apply Z.add_0_r | reflexivity].
Qed.

Lemma evening_instants_land_on_the_next_day_witness :
  exists local,
    parse_date Sample.iso_lib (VStr "2024-01-15T18:30:00Z") = Ok (Some (Ts local None)) /\
    calendar_date local = Sample.days_from_civil 2024 1 16 /\
    time_of_day local = 0.
Proof.
  destruct (evening_instants_land_on_the_next_day Sample.iso_lib "2024-01-15T18:30:00Z"
              (1705343400 * ns_per_second) (Some UTC))
    as (local & Hp & Hday & Htime & _);
    [discriminate | reflexivity | reflexivity | reflexivity |].
  exists local. split; [exact Hp|]. split.
  - rewrite Hday. reflexivity.
  - rewrite Htime. reflexivity.
Defined.

(** * Presentation *)

Lemma date_le_trans a b c : date_le a b -> date_le b c -> date_le a c.
Proof. unfold date_le. lia. Qed.

Lemma date_le_strongly_sorted l : Sorted date_le l -> StronglySorted date_le l.
Proof.
  apply Sorted_StronglySorted. intros a b c. apply date_le_trans.
Qed.

Lemma filter_strongly_sorted (R : Row -> Row -> Prop) (f : Row -> bool) l :
  StronglySorted R l -> StronglySorted R (filter f l).
Proof.
  induction 1 as [|x l Hs IH Hall]; simpl; [constructor|].
  destruct (f x); [|exact IH].
  constructor; [exact IH|].
  apply Forall_forall. intros y Hy. apply filter_In in Hy as [Hy _].
  eapply Forall_forall in Hall; eassumption.
Qed.

Lemma filter_all_true {A} (f : A -> bool) (l : list A) :
  (forall x, In x l -> f x = true) -> filter f l = l.
Proof.
  induction l as [|x l IH]; intros H; simpl; [reflexivity|].
  rewrite (H x (or_introl eq_refl)), IH; [reflexivity|].
  intros y Hy. apply H. now right.
Qed.

Lemma last_default (l : list Row) x y : l <> [] -> last l x = last l y.
Proof.
  induction l as [|a l IH]; intros H; [contradiction|].
  destruct l as [|b l]; [reflexivity|].
  change (last (b :: l) x = last (b :: l) y). apply IH. discriminate.
Qed.

Lemma last_cons (l : list Row) x y : last (y :: l) x = last l y.
Proof.
  destruct l as [|a l]; [reflexivity|].
  change (last (a :: l) x = last (a :: l) y). apply last_default. discriminate.
Qed.

Lemma strongly_sorted_last x l :
  StronglySorted date_le (x :: l) ->
  forall r, In r (x :: l) -> date_le x r /\ date_le r (last l x).
Proof.
  revert x. induction l as [|y l IH]; intros x Hs r Hr.
  - destruct Hr as [<-|[]]. unfold date_le. simpl. lia.
  - inversion Hs as [|? ? Hs' Hall]; subst.
    assert (Hxy : date_le x y) by (inversion Hall; assumption).
    rewrite last_cons.
    destruct Hr as [<-|Hr].
    + split; [unfold date_le; lia|].
      eapply date_le_trans; [exact Hxy|]. apply (IH y Hs' y). now left.
    + destruct (IH y Hs' r Hr) as [H1 H2]. split; [|exact H2].
      eapply date_le_trans; eassumption.
Qed.

(** X15. With a range of two dates, the date filter shows exactly the
    rows of the table whose local calendar day lies between the two,
    bounds included, in the order they had; a table sorted by date stays
    sorted.  It never adds a row. *)
Theorem date_filter_keeps_the_range (P : Lib) (data out : DataFrame) (start_date end_date : Z) :
  date_filter P data [start_date; end_date] = Shown out ->
  columns out = columns data /\
  (forall r, In r (rows out) <->
             In r (rows data) /\
             exists d, local_date P r = Some d /\ start_date <= d <= end_date) /\
  (Sorted date_le (rows data) -> Sorted date_le (rows out)) /\
  (List.length (rows out) <= List.length (rows data))%nat.
Proof.
  unfold date_filter. destruct (empty data); [discriminate|].
  destruct (datetimelike (rows data)); [|discriminate].
  intros H. injection H as <-. cbn [columns rows].
  split; [reflexivity|]. split; [|split].
  - intros r. rewrite filter_In. unfold in_range.
    split; intros [Hin H]; (split; [exact Hin|]).
    + destruct (local_date P r) as [d|]; [|discriminate].
      exists d. split; [reflexivity | lia].
    + destruct H as (d & -> & Hd).
      apply andb_true_iff. split; apply Z.leb_le; lia.
  - intros Hs. apply StronglySorted_Sorted, filter_strongly_sorted,
      date_le_strongly_sorted, Hs.
  - apply filter_length_le.
Qed.

Lemma date_filter_keeps_the_range_witness :
  exists data out,
    load_data_from_notion Sample.iso_lib (Sample.paged_source Rows.january) 1 = Returns data /\
    date_filter Sample.iso_lib data
      [Sample.days_from_civil 2024 1 1; Sample.days_from_civil 2024 1 15] = Shown out /\
    map Name (rows out) = [VStr "Rent"; VStr "Bus"] /\
    (List.length (rows out) <= List.length (rows data))%nat.
Proof.
  eexists. eexists. split; [vm_compute; reflexivity|].
  split; [vm_compute; reflexivity|]. split; [reflexivity|].
  refine (proj2 (proj2 (proj2
            (date_filter_keeps_the_range Sample.iso_lib _ _
               (Sample.days_from_civil 2024 1 1) (Sample.days_from_civil 2024 1 15) _)))).
  vm_compute. reflexivity.
Defined.

Lemma naive_dated_local_date (P : Lib) r :
  naive_dated r = true -> local_date P r = Some (calendar_date (date_key r)) /\ zone r = None.
Proof.
  unfold naive_dated, notna, aware, local_date, date_key, zone.
  destruct (Date r) as [[|ns [tz|]]|]; simpl; try discriminate. now split.
Qed.

Lemma naive_dated_datetimelike x l :
  forallb naive_dated (x :: l) = true -> datetimelike (x :: l) = true.
Proof.
  intros H. unfold datetimelike.
  assert (Hall : forall r, In r (x :: l) -> notna r = true /\ zone r = None).
  { intros r Hr. rewrite forallb_forall in H. specialize (H r Hr).
    split; [unfold naive_dated in H; apply andb_true_iff in H; tauto|].
    apply (naive_dated_local_date Sample.iso_lib r H). }
  apply andb_true_iff. split.
  - simpl. destruct (Hall x (or_introl eq_refl)) as [Hx _].
    unfold notna in Hx. destruct (Date x); [reflexivity | discriminate].
  - rewrite (filter_all_true notna (x :: l)) by (intros r Hr; apply Hall, Hr).
    apply forallb_forall. intros r Hr.
    destruct (Hall x (or_introl eq_refl)) as [_ ->].
    destruct (Hall r (or_intror Hr)) as [_ ->]. reflexivity.
Qed.

(** X16. On a table sorted by date whose dates carry no zone, a range
    that reaches from the day of the first row to the day of the last
    one (the range the date widget proposes) or beyond keeps every row:
    the filter gives the table back unchanged.  So does any selection
    that is not a pair of dates. *)
Theorem covering_range_keeps_every_row (P : Lib) (data : DataFrame) (first : Row)
    (rest : list Row) (start_date end_date : Z) :
  rows data = first :: rest ->
  Sorted date_le (rows data) ->
  forallb naive_dated (rows data) = true ->
  start_date <= calendar_date (date_key first) ->
  calendar_date (date_key (last rest first)) <= end_date ->
  date_filter P data [start_date; end_date] = Shown data /\
  date_filter P data [start_date] = Shown data /\
  date_filter P data [] = Shown data.
Proof.
  intros Hrows Hs Hnaive Hstart Hend.
  unfold date_filter, empty. rewrite Hrows.
  split; [|split; reflexivity].
  rewrite Hrows in Hnaive, Hs. rewrite (naive_dated_datetimelike _ _ Hnaive).
  rewrite filter_all_true.
  - destruct data as [c rs]. simpl in Hrows. subst rs. reflexivity.
  - intros r Hr.
    destruct (strongly_sorted_last _ _ (date_le_strongly_sorted _ Hs) r Hr) as [H1 H2].
    rewrite forallb_forall in Hnaive.
    destruct (naive_dated_local_date P r (Hnaive r Hr)) as [Hd _].
    unfold in_range. rewrite Hd. unfold date_le in H1, H2.
    assert (calendar_date (date_key first) <= calendar_date (date_key r))
      by (apply Z.div_le_mono; [reflexivity | exact H1]).
    assert (calendar_date (date_key r) <= calendar_date (date_key (last rest first)))
      by (apply Z.div_le_mono; [reflexivity | exact H2]).
    apply andb_true_iff. split; apply Z.leb_le; lia.
Qed.

Lemma covering_range_keeps_every_row_witness :
  exists data,
    load_data_from_notion Sample.iso_lib (Sample.paged_source Rows.january) 1 = Returns data /\
    date_filter Sample.iso_lib data
      [Sample.days_from_civil 2024 1 1; Sample.days_from_civil 2024 1 16] = Shown data.
Proof.
  eexists. split; [vm_compute; reflexivity|].
  eapply (covering_range_keeps_every_row Sample.iso_lib _ _ _
            (Sample.days_from_civil 2024 1 1) (Sample.days_from_civil 2024 1 16)).
  - reflexivity.
  - repeat constructor; apply Z.leb_le; reflexivity.
  - reflexivity.
  - apply Z.leb_le. reflexivity.
  - apply Z.leb_le. reflexivity.
Defined.

(** ** The recent transactions *)

Lemma insert_row_desc_perm r l : Permutation (insert_row_desc r l) (r :: l).
Proof.
  induction l as [|x l IH]; simpl; [apply Permutation_refl|].
  destruct (date_key x <=? date_key r); [apply Permutation_refl|].
  eapply perm_trans; [apply perm_skip, IH | apply perm_swap].
Qed.

Lemma sort_rows_desc_perm l : Permutation (sort_rows_desc l) l.
Proof.
  induction l as [|r l IH]; simpl; [constructor|].
  eapply perm_trans; [apply insert_row_desc_perm | apply perm_skip, IH].
Qed.

Lemma insert_row_desc_sorted r l :
  Sorted date_ge l -> Sorted date_ge (insert_row_desc r l).
Proof.
  induction 1 as [|x l Hs IH Hhd]; simpl; [repeat constructor|].
  destruct (date_key x <=? date_key r) eqn:E.
  - constructor; [constructor; assumption|].
    constructor. apply Z.leb_le in E. exact E.
  - constructor; [exact IH|].
    apply Z.leb_gt in E.
    destruct l as [|y l]; simpl.
    + constructor. unfold date_ge. lia.
    + destruct (date_key y <=? date_key r); constructor.
      * unfold date_ge. lia.
      * inversion Hhd; assumption.
Qed.

Lemma sort_rows_desc_sorted l : StronglySorted date_ge (sort_rows_desc l).
Proof.
  apply Sorted_StronglySorted.
  - intros a b c. unfold date_ge. lia.
  - induction l as [|r l IH]; simpl; [constructor | apply insert_row_desc_sorted, IH].
Qed.

Lemma filter_partition_perm {A} (f : A -> bool) (l : list A) :
  Permutation (filter f l ++ filter (fun x => negb (f x)) l) l.
Proof.
  induction l as [|x l IH]; simpl; [constructor|].
  destruct (f x); simpl.
  - now constructor.
  - eapply perm_trans; [apply Permutation_sym, Permutation_middle|]. now constructor.
Qed.

Lemma strongly_sorted_app (R : Row -> Row -> Prop) l1 l2 :
  StronglySorted R l1 -> StronglySorted R l2 ->
  (forall a b, In a l1 -> In b l2 -> R a b) ->
  StronglySorted R (l1 ++ l2).
Proof.
  induction 1 as [|x l1 Hs IH Hall]; intros H2 Hcross; simpl; [exact H2|].
  constructor.
  - apply IH; [exact H2|]. intros a b Ha Hb. apply Hcross; [now right | exact Hb].
  - apply Forall_app. split; [exact Hall|].
    apply Forall_forall. intros b Hb. apply Hcross; [now left | exact Hb].
Qed.

Lemma strongly_sorted_split (R : Row -> Row -> Prop) l :
  StronglySorted R l ->
  forall n a b, In a (firstn n l) -> In b (skipn n l) -> R a b.
Proof.
  induction 1 as [|x l Hs IH Hall]; intros n a b Ha Hb.
  - destruct n; contradiction.
  - destruct n as [|n]; [contradiction|].
    simpl in Ha, Hb. destruct Ha as [<-|Ha].
    + eapply Forall_forall in Hall; [exact Hall|].
      rewrite <- (firstn_skipn n l). apply in_or_app. now right.
    + now apply IH with n.
Qed.

Lemma recent_order l :
  StronglySorted recent_first
    (sort_rows_desc (filter notna l) ++ filter (fun r => negb (notna r)) l).
Proof.
  assert (Hd : forall a, In a (sort_rows_desc (filter notna l)) -> notna a = true).
  { intros a Ha. eapply Permutation_in in Ha; [|apply sort_rows_desc_perm].
    apply filter_In in Ha. tauto. }
  assert (Hn : forall b, In b (filter (fun r => negb (notna r)) l) -> notna b = false).
  { intros b Hb. apply filter_In in Hb as [_ Hb]. now apply negb_true_iff. }
  apply strongly_sorted_app.
  - pose proof (sort_rows_desc_sorted (filter notna l)) as Hs.
    induction Hs as [|x l' Hs IH Hall]; constructor.
    + apply IH. intros a Ha. apply Hd. now right.
    + eapply Forall_impl; [|exact Hall].
      intros b Hb. split; [intros _ _; exact Hb|].
      intros Hx. rewrite (Hd x (or_introl eq_refl)) in Hx. discriminate.
  - induction (filter (fun r => negb (notna r)) l) as [|x l' IH]; constructor.
    + apply IH. intros b Hb. apply Hn. now right.
    + apply Forall_forall. intros b Hb. split.
      * intros Hx. rewrite (Hn x (or_introl eq_refl)) in Hx. discriminate.
      * intros _. apply Hn. now right.
  - intros a b Ha Hb. split.
    + intros _ Hb'. rewrite (Hn b Hb) in Hb'. discriminate.
    + intros Ha'. rewrite (Hd a Ha) in Ha'. discriminate.
Qed.

(** X17. The recent transactions are the ten latest rows of the filtered
    table, or all of them when there are fewer: every row shown is a row
    of the table, no row is shown twice over, each dated row left out is
    no later than each dated row shown, and a row without a date is
    shown only when every row left out has none either. *)
Theorem recent_transactions_are_the_latest (filtered_data out : DataFrame) :
  recent_transactions filtered_data = Ok out ->
  columns out = columns filtered_data /\
  List.length (rows out) = Nat.min 10 (List.length (rows filtered_data)) /\
  StronglySorted recent_first (rows out) /\
  exists older,
    Permutation (rows out ++ older) (rows filtered_data) /\
    forall a b, In a (rows out) -> In b older -> recent_first a b.
Proof.
  unfold recent_transactions, sort_values_Date_descending.
  destruct (comparable (filter notna (rows filtered_data))); [|discriminate].
  simpl. intros H. injection H as <-. cbn [columns rows head].
  set (sorted := sort_rows_desc (filter notna (rows filtered_data)) ++
                 filter (fun r => negb (notna r)) (rows filtered_data)).
  assert (Hperm : Permutation sorted (rows filtered_data)).
  { eapply perm_trans; [|apply (filter_partition_perm notna)].
    apply Permutation_app_tail, sort_rows_desc_perm. }
  pose proof (recent_order (rows filtered_data)) as Hs. fold sorted in Hs.
  split; [reflexivity|]. split; [|split].
  - rewrite length_firstn, (Permutation_length Hperm). reflexivity.
  - rewrite <- (firstn_skipn 10 sorted) in Hs.
    clear Hperm. revert Hs. generalize (firstn 10 sorted) (skipn 10 sorted).
    induction l as [|x l IH]; intros l' Hs; [constructor|].
    simpl in Hs. inversion Hs as [|? ? Hs' Hall]; subst.
    constructor; [now apply IH with l'|].
    apply Forall_app in Hall. tauto.
  - exists (skipn 10 sorted). split.
    + rewrite firstn_skipn. exact Hperm.
    + intros a b. now apply strongly_sorted_split.
Qed.

Lemma recent_transactions_are_the_latest_witness :
  exists data out,
    load_data_from_notion Sample.iso_lib (Sample.paged_source Rows.january) 1 = Returns data /\
    recent_transactions data = Ok out /\
    map Name (rows out) = [VStr "Lunch"; VStr "Bus"; VStr "Rent"] /\
    List.length (rows out) = Nat.min 10 (List.length (rows data)).
Proof.
  eexists. eexists. split; [vm_compute; reflexivity|].
  split; [vm_compute; reflexivity|]. split; [reflexivity|].
  refine (proj1 (proj2 (recent_transactions_are_the_latest _ _ _))).
  vm_compute. reflexivity.
Defined.

(** ** From the ingestion to the dashboard *)

(** X14. When the first fetched row, if any, has its ["properties"] and
    every fetched row either fails in extraction or has no date, the
    dashboard reaches its "no data" stop: the ingestion returns a table
    without rows and the script halts on it before any filter is
    applied, whatever the date selection. *)
Theorem no_dated_row_halts_the_dashboard (P : Lib) (src : Source) (fuel : nat)
    (results : list value) (date_range : list Z) :
  fetch src fuel = Returns results ->
  first_bound results = true ->
  filter notna (survivors P results) = [] ->
  exists data,
    load_data_from_notion P src fuel = Returns data /\
    empty data = true /\
    date_filter P data date_range = Halted.
Proof.
  intros Hfetch Hb Hnone.
  exists {| columns := schema; rows := [] |}. split; [|split; reflexivity].
  unfold load_data_from_notion. rewrite Hfetch, (ingest_first_bound P _ Hb).
  rewrite table_of_comparable; rewrite Hnone; reflexivity.
Qed.

Lemma no_dated_row_halts_the_dashboard_witness :
  exists data,
    load_data_from_notion Sample.iso_lib
      (Sample.paged_source [[Rows.blank; Rows.unknown_date]]) 0 = Returns data /\
    empty data = true /\
    date_filter Sample.iso_lib data [0; 1] = Halted.
Proof.
  apply (no_dated_row_halts_the_dashboard Sample.iso_lib _ 0
           [Rows.blank; Rows.unknown_date]); reflexivity.
Defined.

(** ** Dates without a zone *)

Lemma parse_aware_zoneless (P : Lib) v t :
  parse_aware P v = Ok t -> tzinfo_is_None t = true.
Proof.
  unfold parse_aware.
  destruct (to_datetime_mixed P v) as [[|ns [tz|]]|]; simpl; try discriminate.
  - intros H. injection H as <-. reflexivity.
  - destruct (in_bounds _); [|discriminate]. intros H. injection H as <-. reflexivity.
  - destruct (in_bounds _); [|discriminate]. intros H. injection H as <-. reflexivity.
Qed.

Lemma parse_date_zoneless (P : Lib) v d :
  (forall x t, to_datetime P x = Ok t -> tzinfo_is_None t = true) ->
  parse_date P v = Ok d ->
  match d with Some t => tzinfo_is_None t = true | None => True end.
Proof.
  intros Hfb. unfold parse_date. destruct (truthy v).
  - unfold try_except.
    destruct (parse_aware P v) as [t|e] eqn:E; simpl.
    + intros H. injection H as <-. now apply parse_aware_zoneless with P v.
    + destruct (split_T_0 v) as [h|]; [|discriminate]. simpl.
      destruct (to_datetime P h) as [t|] eqn:E'; [|discriminate]. simpl.
      intros H. injection H as <-. now apply Hfb with h.
  - intros H. injection H as <-. exact I.
Qed.

Lemma survivors_not_aware (P : Lib) results :
  (forall x t, to_datetime P x = Ok t -> tzinfo_is_None t = true) ->
  forall r, In r (survivors P results) -> aware r = false.
Proof.
  intros Hfb r Hr. apply survivors_in in Hr as (page & _ & Hr).
  unfold normalise_page in Hr.
  destruct (getitem page "properties") as [props|]; [|discriminate]. simpl in Hr.
  apply extract_row_date in Hr as (dv & _ & Hp).
  apply (parse_date_zoneless P _ _ Hfb) in Hp.
  unfold aware. destruct (Date r) as [[|ns [tz|]]|]; try reflexivity. discriminate.
Qed.

(** X13. The full parse always ends in a date without a zone.  So when
    the fallback parser gives dates without a zone as well, the final
    sort cannot fail: from any batch whose first row has its
    ["properties"], the ingestion returns a table, and every date in it
    is without a zone. *)
Theorem ingestion_returns_when_dates_have_no_zone (P : Lib) (results : list value) :
  (forall x t, to_datetime P x = Ok t -> tzinfo_is_None t = true) ->
  first_bound results = true ->
  (forall v t, parse_aware P v = Ok t -> tzinfo_is_None t = true) /\
  exists df,
    ingest P results = Ok df /\
    forallb naive_dated (rows df) = true.
Proof.
  intros Hfb Hb. split; [intros v t; apply parse_aware_zoneless|].
  assert (Hna : forall r, In r (filter notna (survivors P results)) -> naive_dated r = true).
  { intros r Hr. apply filter_In in Hr as [Hr Hn].
    unfold naive_dated. rewrite Hn, (survivors_not_aware P results Hfb r Hr). reflexivity. }
  assert (Hc : comparable (filter notna (survivors P results)) = true).
  { unfold comparable. apply orb_true_iff. right.
    apply forallb_forall. intros r Hr. specialize (Hna r Hr).
    unfold naive_dated in Hna. apply andb_true_iff in Hna. tauto. }
  eexists. rewrite (ingest_first_bound P _ Hb), (table_of_comparable _ Hc).
  split; [reflexivity|]. cbn [rows].
  apply forallb_forall. intros r Hr. apply Hna.
  eapply Permutation_in; [apply sort_rows_perm | exact Hr].
Qed.

Lemma date_only_fallback_zoneless x t :
  SampleDateOnly.parse_date_only x = Ok t -> tzinfo_is_None t = true.
Proof.
  destruct x as [| | | |s| |]; simpl; try discriminate.
  destruct (Sample.iso_date s) as [d|]; [|discriminate].
  unfold Sample.checked. destruct (in_bounds d); [|discriminate].
  intros H. injection H as <-. reflexivity.
Qed.

Lemma ingestion_returns_when_dates_have_no_zone_witness :
  exists df,
    ingest SampleDateOnly.lib (List.concat Rows.january) = Ok df /\
    forallb naive_dated (rows df) = true.
Proof.
  apply (ingestion_returns_when_dates_have_no_zone SampleDateOnly.lib
           (List.concat Rows.january)).
  - exact date_only_fallback_zoneless.
  - reflexivity.
Defined.

(** ** The order of the raw rows *)

Lemma filter_perm {A} (f : A -> bool) (l l' : list A) :
  Permutation l l' -> Permutation (filter f l) (filter f l').
Proof.
  induction 1 as [|x l l' _ IH|x y l|l l' l'' _ IH1 _ IH2]; simpl.
  - constructor.
  - destruct (f x); [now constructor | exact IH].
  - destruct (f x), (f y); try apply Permutation_refl. apply perm_swap.
  - eapply perm_trans; eassumption.
Qed.

Lemma forallb_perm {A} (f : A -> bool) (l l' : list A) :
  Permutation l l' -> forallb f l = true -> forallb f l' = true.
Proof.
  intros Hp H. apply forallb_forall. intros x Hx.
  rewrite forallb_forall in H. apply H.
  eapply Permutation_in; [apply Permutation_sym, Hp | exact Hx].
Qed.

Lemma comparable_perm l l' :
  Permutation l l' -> comparable l = true -> comparable l' = true.
Proof.
  unfold comparable. intros Hp H. apply orb_true_iff in H. apply orb_true_iff.
  destruct H as [H|H]; [left | right]; eapply forallb_perm; eassumption.
Qed.

Lemma table_of_ok_comparable processed df :
  table_of processed = Ok df -> comparable (filter notna processed) = true.
Proof.
  destruct processed as [|r l]; [reflexivity|].
  unfold table_of, sort_values_Date. cbn [rows dropna_Date DataFrame_records].
  destruct (comparable (filter notna (r :: l))); [reflexivity | discriminate].
Qed.

(** X5. The order in which the raw rows arrive does not matter to the
    table beyond the order of equal dates: if the ingestion of a batch
    returns a table, the ingestion of any reordering of the batch whose
    first row has its ["properties"] returns a table with the same rows,
    again sorted by date. *)
Theorem raw_order_does_not_matter (P : Lib) (results results' : list value) (df : DataFrame) :
  Permutation results results' ->
  ingest P results = Ok df ->
  first_bound results' = true ->
  exists df',
    ingest P results' = Ok df' /\
    columns df' = columns df /\
    Permutation (rows df) (rows df') /\
    Sorted date_le (rows df').
Proof.
  intros Hp Hing Hb'.
  assert (Hb : first_bound results = true).
  { destruct results as [|page rest]; [reflexivity|].
    simpl. destruct (has_properties page) eqn:E; [reflexivity|].
    unfold ingest in Hing. rewrite (process_rows_unbound P _ _ _ E) in Hing. discriminate. }
  rewrite (ingest_first_bound P _ Hb) in Hing.
  pose proof (table_of_ok_comparable _ _ Hing) as Hc.
  apply table_of_rows in Hing as [Hcols Hrows].
  assert (Hsurv : Permutation (filter notna (survivors P results))
                              (filter notna (survivors P results'))).
  { apply filter_perm. unfold survivors. now apply Permutation_flat_map. }
  exists {| columns := schema; rows := sort_rows (filter notna (survivors P results')) |}.
  rewrite (ingest_first_bound P _ Hb'),
          (table_of_comparable _ (comparable_perm _ _ Hsurv Hc)).
  split; [reflexivity|]. split; [now rewrite Hcols|]. cbn [rows]. rewrite Hrows. split.
  - eapply perm_trans; [apply sort_rows_perm|].
    eapply perm_trans; [exact Hsurv | apply Permutation_sym, sort_rows_perm].
  - apply sort_rows_sorted.
Qed.

Lemma raw_order_does_not_matter_witness :
  exists df df',
    ingest Sample.iso_lib [Rows.morning; Rows.refund] = Ok df /\
    ingest Sample.iso_lib [Rows.refund; Rows.morning] = Ok df' /\
    Permutation (rows df) (rows df').
Proof.
  eexists.
  destruct (raw_order_does_not_matter Sample.iso_lib
              [Rows.morning; Rows.refund] [Rows.refund; Rows.morning] _
              (perm_swap _ _ _) eq_refl eq_refl) as (df' & Hing & _ & Hperm & _).
  exists df'. split; [reflexivity|]. split; [exact Hing | exact Hperm].
Defined.


(** ** C9: the empty result and a first row without properties *)

(** C9. The claim asks for an empty table with the full schema whenever
    no row survives.  The code misses it when the first fetched row has
    no ["properties"]: with an empty first page followed by a page
    holding the single row [{}], no row survives, yet the handler of
    line 108 reads the unbound [properties] and the ingestion raises
    [UnboundLocalError]; with that row on the first page, the eager
    read of line 44 raises [KeyError].  The same row behind a row that
    has its ["properties"] is skipped as the claim says. *)
Theorem no_survivor_but_first_row_unreadable (P : Lib) :
  fetch (Sample.paged_source [[]; [VDict []]]) 1 = Returns [VDict []] /\
  survivors P [VDict []] = [] /\
  load_data_from_notion P (Sample.paged_source [[]; [VDict []]]) 1 =
    Raises UnboundLocalError /\
  load_data_from_notion P (Sample.paged_source [[VDict []]]) 0 = Raises KeyError /\
  load_data_from_notion P (Sample.paged_source [[Rows.blank; VDict []]]) 0 =
    Returns {| columns := ["Name"; "Amount"; "Category"; "Date"; "Comment"]; rows := [] |}.
Proof.
  repeat split.
Qed.
